(** * The sermon pipeline of [main.py]

    [main.py] probes the duration of an audio file, speeds the audio up when
    it is longer than the transcription service accepts, transcribes it
    (or reads a cached transcript) and asks a language model for a summary.

    The embedding follows the source function by function.

    - Python [float] durations and speed factors are exact rationals ([Q]):
      binary64 rounding, infinities and NaN are outside the model.
    - [pathlib.Path] (POSIX flavour) is a record of a root and its
      components; [with_suffix], [suffix], [stem], [name] and [str] follow
      the library's definitions.
    - The file system is a finite map from paths to file contents; only
      regular files are modelled, and reading or writing an existing
      location never fails.
    - The external tools ([ffprobe], [ffmpeg]) and the two hosted APIs are
      oracles: functions of the world before the call and of the request.
      Every call is recorded in a trace before its oracle is consulted.
    - Exceptions are values threaded by a state-and-error monad. *)

From Stdlib Require Import QArith Qround Lqa ZArith Lia Ascii.
From stdpp Require Import gmap strings list pretty.

(** ** Module constants *)

Definition WHISPER1_MAX_AUDIO_DURATION_SEC : Z := 1500.
Definition GPT40_MAX_AUDIO_SIZE_BYTES : Z := 26214400.

(** ** Python strings *)

Module PyStr.

(** [s[:n]] and [s[n:]] *)
Fixpoint take (n : nat) (s : string) : string :=
  match n, s with
  | S n', String a s' => String a (take n' s')
  | _, _ => EmptyString
  end.

Fixpoint drop (n : nat) (s : string) : string :=
  match n, s with
  | S n', String _ s' => drop n' s'
  | _, _ => s
  end.

(** [s.rfind(c)]: the highest index holding [c]; [None] stands for -1. *)
Fixpoint rfind (c : ascii) (s : string) : option nat :=
  match s with
  | EmptyString => None
  | String a s' =>
      match rfind c s' with
      | Some i => Some (S i)
      | None => if Ascii.eqb a c then Some 0%nat else None
      end
  end.

(** [s.startswith(p)] *)
Fixpoint startswith (p s : string) : bool :=
  match p, s with
  | EmptyString, _ => true
  | String a p', String b s' => Ascii.eqb a b && startswith p' s'
  | String _ _, EmptyString => false
  end.

(** [p in s] *)
Fixpoint contains (p s : string) : bool :=
  startswith p s ||
  match s with
  | EmptyString => false
  | String _ s' => contains p s'
  end.

(** [s.endswith(p)] *)
Definition endswith (p s : string) : bool :=
  String.eqb (drop (String.length s - String.length p) s) p
  && (String.length p <=? String.length s)%nat.

(** [sep.join(l)] *)
Fixpoint join (sep : string) (l : list string) : string :=
  match l with
  | [] => ""
  | [x] => x
  | x :: l' => x +:+ sep +:+ join sep l'
  end.

(** [s.split(sep)] for a one-character separator *)
Fixpoint split (sep : ascii) (s : string) : list string :=
  match s with
  | EmptyString => [""]
  | String a s' =>
      if Ascii.eqb a sep then "" :: split sep s'
      else match split sep s' with
           | [] => [String a ""]
           | x :: l => String a x :: l
           end
  end.

(** [s.count(c)] for a character [c] *)
Fixpoint count (c : ascii) (s : string) : nat :=
  match s with
  | EmptyString => 0
  | String a s' => (if Ascii.eqb a c then 1 else 0) + count c s'
  end.


End PyStr.

(** ** Exceptions

    [main] tells [FileNotFoundError] from every other [Exception]; both
    carry the text that [str(e)] prints. *)

Inductive exn :=
| FileNotFoundError (msg : string)
| Exception (msg : string).


(** ** [pathlib.PurePosixPath] *)

Record Path := mkPath { root : string; parts : list string }.

Global Instance Path_eq_dec : EqDecision Path.
Proof. solve_decision. Defined.

Global Instance Path_countable : Countable Path.
Proof.
  refine (inj_countable' (λ p, (root p, parts p))
                         (λ x, mkPath x.1 x.2) _).
  by intros [].
Defined.

Module PathOps.

(** [Path(s)]: one or three and more leading slashes give the root "/",
    exactly two give "//"; empty and "." components are dropped. *)
Definition parse_root (s : string) : string :=
  if PyStr.startswith "/" s then
    if PyStr.startswith "//" s && negb (PyStr.startswith "///" s)
    then "//" else "/"
  else "".

Definition keep_part (x : string) : bool :=
  negb (String.eqb x "") && negb (String.eqb x ".").

Definition of_string (s : string) : Path :=
  mkPath (parse_root s) (List.filter keep_part (PyStr.split "/" s)).

(** [str(p)] *)
Definition str (p : Path) : string :=
  match root p, parts p with
  | "", [] => "."
  | r, l => r +:+ PyStr.join "/" l
  end.

(** [p.name]: the last component, empty when there is none. *)
Definition name (p : Path) : string := List.last (parts p) "".

(** [p.suffix]:
    [i = name.rfind('.')], the suffix is [name[i:]] when
    [0 < i < len(name) - 1] and empty otherwise. *)
Definition suffix (p : Path) : string :=
  let n := name p in
  match PyStr.rfind "." n with
  | Some i =>
      if (0 <? i)%nat && (Z.of_nat i <? Z.of_nat (String.length n) - 1)%Z
      then PyStr.drop i n else ""
  | None => ""
  end.

(** [p.stem] *)
Definition stem (p : Path) : string :=
  let n := name p in
  match PyStr.rfind "." n with
  | Some i =>
      if (0 <? i)%nat && (Z.of_nat i <? Z.of_nat (String.length n) - 1)%Z
      then PyStr.take i n else n
  | None => n
  end.

(** [p.with_suffix(suffix)]; the library raises [ValueError] for an
    invalid suffix and for a path without a name. *)
Definition with_suffix (p : Path) (sfx : string) : exn + Path :=
  if PyStr.contains "/" sfx
  then inl (Exception ("Invalid suffix '" +:+ sfx +:+ "'"))
  else if (negb (String.eqb sfx "") && negb (PyStr.startswith "." sfx))
          || String.eqb sfx "."
  then inl (Exception ("Invalid suffix '" +:+ sfx +:+ "'"))
  else
    let n := name p in
    if String.eqb n ""
    then inl (Exception ("PosixPath('" +:+ str p +:+ "') has an empty name"))
    else
      let old_suffix := suffix p in
      let n' :=
        if String.eqb old_suffix "" then n +:+ sfx
        else PyStr.take (String.length n - String.length old_suffix) n
             +:+ sfx in
      inr (mkPath (root p) (removelast (parts p) ++ [n'])).

End PathOps.

(** ** Formatting of floats

    [repr] of a float prints the shortest decimal that reads back as the
    same float, with at least one digit after the point.  For the rationals
    of the model this is the decimal expansion itself: the integer part,
    then the digits of the fraction until the remainder vanishes (cut after
    17 digits).  Python prints positionally below 1e16 and in exponent
    notation from there on; the model is positional throughout. *)

Fixpoint frac_digits (fuel : nat) (r d : Z) : string :=
  match fuel with
  | O => ""
  | S fuel' =>
      let r10 := (r * 10)%Z in
      let dg := (r10 / d)%Z in
      let r' := (r10 mod d)%Z in
      pretty dg +:+ (if (r' =? 0)%Z then "" else frac_digits fuel' r' d)
  end.

Definition float_str (q : Q) : string :=
  let n := Z.abs (Qnum q) in
  let d := Zpos (Qden q) in
  (if (Qnum q <? 0)%Z then "-" else "")
  +:+ pretty (n / d)%Z +:+ "." +:+ frac_digits 17 (n mod d)%Z d.

(** ** The speed factor: line 109 of [process_audio_file]

    [new_speed = ceil(length_sec / WHISPER1_MAX_AUDIO_DURATION_SEC * 10) / 10] *)

Definition new_speed (length_sec : Q) : Q :=
  inject_Z
    (Qceiling (length_sec / inject_Z WHISPER1_MAX_AUDIO_DURATION_SEC
               * inject_Z 10))
  / inject_Z 10.

(** ** The world: files, calls made, lines printed *)

Inductive event :=
| Subprocess (command : list string)
| TranscriptionsCreate (model : string) (file : Path)
| ResponsesCreate (model : string) (role : string) (content : string).

Record World := mkWorld {
  fs : gmap Path string;
  trace : list event;
  stdout : list string
}.

Definition is_subprocess (ev : event) : bool :=
  match ev with Subprocess _ => true | _ => false end.

Definition is_transcription_call (ev : event) : bool :=
  match ev with TranscriptionsCreate _ _ => true | _ => false end.

Definition is_summary_call (ev : event) : bool :=
  match ev with ResponsesCreate _ _ _ => true | _ => false end.

Definition is_ffmpeg (ev : event) : bool :=
  match ev with Subprocess ("ffmpeg" :: _) => true | _ => false end.

(** The collaborators the program consumes.  Each answers from the world
    before the call and the request; [inl] is the exception the call
    raises. *)
Record Env := mkEnv {
  (** [subprocess.check_output(command, text=True)]: the standard output *)
  check_output : World → list string → exn + string;
  (** [float(result.strip())] *)
  float_of_output : string → exn + Q;
  (** [subprocess.run(command, check=True)] of the transcoder: the bytes it
      leaves in its output file *)
  run_checked : World → list string → exn + string;
  (** [client.audio.transcriptions.create(model, file)]: [.text] *)
  transcriptions_create : World → string → Path → string → exn + string;
  (** [client.responses.create(model, input, store=False)]: [.output_text] *)
  responses_create : World → string → string → string → exn + string
}.

(** ** The monad: state and exceptions *)

Definition M (A : Type) : Type := World → (exn + A) * World.

Global Instance M_ret : MRet M := λ A a w, (inr a, w).

Global Instance M_bind : MBind M := λ A B k m w,
  match m w with
  | (inl e, w') => (inl e, w')
  | (inr a, w') => k a w'
  end.

Definition raise {A} (e : exn) : M A := λ w, (inl e, w).

Definition lift {A} (r : exn + A) : M A := λ w, (r, w).

Definition get_world : M World := λ w, (inr w, w).

Definition emit (ev : event) : M unit :=
  λ w, (inr tt, mkWorld (fs w) (trace w ++ [ev]) (stdout w)).

Definition print (line : string) : M unit :=
  λ w, (inr tt, mkWorld (fs w) (trace w) (stdout w ++ [line])).

(** [p.exists()] *)
Definition path_exists (p : Path) : M bool :=
  λ w, (inr (bool_decide (is_Some (fs w !! p))), w).

(** Opening [p] for reading, and reading it whole. *)
Definition read_file (p : Path) : M string :=
  λ w, match fs w !! p with
       | Some c => (inr c, w)
       | None =>
           (inl (FileNotFoundError
                   ("[Errno 2] No such file or directory: '"
                    +:+ PathOps.str p +:+ "'")), w)
       end.

(** [with p.open("w") as f: f.write(c)] *)
Definition write_file (p : Path) (c : string) : M unit :=
  λ w, (inr tt, mkWorld (<[p := c]> (fs w)) (trace w) (stdout w)).

Definition nl : string := String (ascii_of_nat 10) "".

(** ** The program *)

Section Program.

Variable E : Env.

(** [subprocess.check_output(command, text=True)] *)
Definition subprocess_check_output (command : list string) : M string :=
  w ← get_world;
  emit (Subprocess command);;
  lift (check_output E w command).

(** [subprocess.run(command, check=True)]; the transcoder writes
    [out_file] when it succeeds. *)
Definition subprocess_run (command : list string) (out_file : Path)
  : M unit :=
  w ← get_world;
  emit (Subprocess command);;
  bytes ← lift (run_checked E w command);
  write_file out_file bytes.

(** Lines 17-26 *)
Definition transcribe_audio (audio_file : Path) : M string :=
  file ← read_file audio_file;
  w ← get_world;
  emit (TranscriptionsCreate "whisper-1" audio_file);;
  transcription ←
    lift (transcriptions_create E w "whisper-1" audio_file file);
  mret transcription.

(** Lines 29-43 *)
Definition ffprobe_command (audio_file : Path) : list string :=
  [ "ffprobe"; "-v"; "error"; "-show_entries"; "format=duration";
    "-of"; "default=noprint_wrappers=1:nokey=1";
    PathOps.str audio_file ].

Definition get_audio_length (audio_file : Path) : M Q :=
  let command := ffprobe_command audio_file in
  result ← subprocess_check_output command;
  original_length_sec ← lift (float_of_output E result);
  mret original_length_sec.

(** Lines 46-59 *)
Definition ffmpeg_command (audio_file : Path) (speed : Q) (out_file : Path)
  : list string :=
  [ "ffmpeg"; "-i"; PathOps.str audio_file; "-filter:a";
    "atempo=" +:+ float_str speed; "-y"; "-loglevel"; "error";
    PathOps.str out_file ].

Definition change_audio_speed (audio_file : Path) (speed : Q)
    (out_file : Path) : M unit :=
  subprocess_run (ffmpeg_command audio_file speed out_file) out_file.

(** Lines 70-75: an [additional_instructions] that is [None] or falsy
    (the empty string) leaves the default in place. *)
Definition default_instruction : string :=
  "Start it with a question to the listener.".

Definition choose_instruction (additional_instructions : option string)
  : string :=
  let instruction := default_instruction in
  match additional_instructions with
  | Some s => if String.eqb s "" then instruction else s
  | None => instruction
  end.

(** Lines 82-88: the content of the one user message *)
Definition summary_content (instruction text : string) : string :=
  "The following is a transcript of a sunday sermon. "
  +:+ "Please summarize it in a brief paragraph. "
  +:+ (instruction +:+ ". ")
  +:+ ("Also generate an SEO keyphrase that can be used to help people search for this sermon on the internet:"
       +:+ nl +:+ nl)
  +:+ text.

(** Lines 62-93 *)
Definition summarize_text (text : string)
    (additional_instructions : option string) : M string :=
  let instruction := choose_instruction additional_instructions in
  let content := summary_content instruction text in
  w ← get_world;
  emit (ResponsesCreate "gpt-4.1" "user" content);;
  response ← lift (responses_create E w "gpt-4.1" "user" content);
  mret response.

(** Lines 96-119 *)
Definition process_audio_file (audio_file : Path) : M Path :=
  ex ← path_exists audio_file;
  if negb ex then
    raise (FileNotFoundError
             ("Audio file does not exist: " +:+ PathOps.str audio_file))
  else
    length_sec ← get_audio_length audio_file;
    print ("Audio length: " +:+ float_str length_sec +:+ " seconds");;
    if Qle_bool length_sec (inject_Z WHISPER1_MAX_AUDIO_DURATION_SEC) then
      print "Audio is short enough, no need to change speed.";;
      mret audio_file
    else
      print "Audio is too long for AI transcription service.";;
      let new_speed := new_speed length_sec in
      length_adjusted_audio_file ←
        lift (PathOps.with_suffix audio_file
                (".x" +:+ float_str new_speed +:+ ".mp3"));
      ex' ← path_exists length_adjusted_audio_file;
      if (ex' : bool) then
        print ("Using existing sped up audio file: "
               +:+ PathOps.str length_adjusted_audio_file);;
        mret length_adjusted_audio_file
      else
        print ("Increasing speed by " +:+ float_str new_speed +:+ "x...");;
        change_audio_speed audio_file new_speed length_adjusted_audio_file;;
        print ("Done. New audio file: "
               +:+ PathOps.str length_adjusted_audio_file);;
        mret length_adjusted_audio_file.

(** Lines 122-137 *)
Definition get_transcript (audio_file : Path) : M string :=
  transcription_file ←
    lift (PathOps.with_suffix audio_file ".transcript.txt");
  ex ← path_exists transcription_file;
  if (ex : bool) then
    print ("Using existing transcription: "
           +:+ PathOps.str transcription_file);;
    read_file transcription_file
  else
    print ("Transcribing audio file: '"
           +:+ PathOps.str audio_file +:+ "'...");;
    transcript ← transcribe_audio audio_file;
    write_file transcription_file transcript;;
    print ("Transcription saved to: "
           +:+ PathOps.str transcription_file);;
    mret transcript.

(** Lines 140-159 *)
Definition generate_and_save_summary (audio_file : Path)
    (transcript : string) (additional_instructions : option string)
  : M unit :=
  print "Summarizing sermon transcript...";;
  summary ← summarize_text transcript additional_instructions;
  summary_file ← lift (PathOps.with_suffix audio_file ".summary.txt");
  write_file summary_file summary;;
  print ("Summary saved to: " +:+ PathOps.str summary_file);;
  print ("Summary:" +:+ nl +:+ summary).

(** Lines 162-180: the namespace [parse_arguments] returns. *)
Record Args := mkArgs {
  audio_file : string;
  instructions : option string
}.

(** Lines 187-198: the body of the [try] of [main] *)
Definition main_body (args : Args) : M unit :=
  let audio_file_path := PathOps.of_string (audio_file args) in
  let additional_instructions := instructions args in
  processed_audio ← process_audio_file audio_file_path;
  transcript ← get_transcript processed_audio;
  generate_and_save_summary processed_audio transcript
    additional_instructions.

(** Lines 183-207: [main] returns the exit code. *)
Definition main (args : Args) (w : World) : Z * World :=
  match main_body args w with
  | (inr _, w') => (0%Z, w')
  | (inl (FileNotFoundError msg), w') =>
      (1%Z, (print ("Error: " +:+ msg) w').2)
  | (inl (Exception msg), w') =>
      (1%Z, (print ("An unexpected error occurred: " +:+ msg) w').2)
  end.

End Program.

(** ** Vocabulary of the statements *)

(** The duration prober measures [d] on [audio_file] in world [w]: the
    tool prints [out] and [float] reads [d] from it. *)
Definition probes_to (E : Env) (w : World) (audio_file : Path) (d : Q)
  : Prop :=
  ∃ out, check_output E w (ffprobe_command audio_file) = inr out
         ∧ float_of_output E out = inr d.

(** The world after [lines] were printed, and after [evs] were recorded. *)
Definition printed (w : World) (lines : list string) : World :=
  mkWorld (fs w) (trace w) (stdout w ++ lines).

Definition recorded (w : World) (evs : list event) : World :=
  mkWorld (fs w) (trace w ++ evs) (stdout w).

Definition stored (w : World) (p : Path) (c : string) : World :=
  mkWorld (<[p := c]> (fs w)) (trace w) (stdout w).

(** The world in which [process_audio_file] takes its decision: the probe
    is recorded and the measured length printed. *)
Definition probed (w : World) (audio_file : Path) (d : Q) : World :=
  printed (recorded w [Subprocess (ffprobe_command audio_file)])
          ["Audio length: " +:+ float_str d +:+ " seconds"].

(** The worlds along the long branch of [process_audio_file]. *)
Definition too_long (w : World) (audio_file : Path) (d : Q) : World :=
  printed (probed w audio_file d)
          ["Audio is too long for AI transcription service."].

Definition before_ffmpeg (w : World) (audio_file : Path) (d : Q) : World :=
  printed (too_long w audio_file d)
          ["Increasing speed by " +:+ float_str (new_speed d) +:+ "x..."].

(** The world in which [get_transcript] calls the transcriber. *)
Definition transcribing (w : World) (audio_file : Path) : World :=
  printed w ["Transcribing audio file: '"
             +:+ PathOps.str audio_file +:+ "'..."].

(** The line a handler of [main] prints for the exception it caught
    (lines 202-207). *)
Definition error_line (e : exn) : string :=
  match e with
  | FileNotFoundError msg => "Error: " +:+ msg
  | Exception msg => "An unexpected error occurred: " +:+ msg
  end.

(** ** A fixed scenario for the examples

    One audio file [sermon.mp3]; the prober measures [dur]; every
    collaborator succeeds. *)
Definition demo_env (dur : Q) : Env :=
  mkEnv (λ _ _, inr "measured") (λ _, inr dur)
        (λ _ _, inr "sped-up bytes")
        (λ _ _ _ _, inr "Hello world.")
        (λ _ _ _ _, inr "A summary.").

Definition sermon : Path := PathOps.of_string "sermon.mp3".

Definition demo_world : World := mkWorld {[ sermon := "bytes" ]} [] [].

(** The same, with a transcript already in place. *)
Definition cached_world : World :=
  mkWorld (<[ PathOps.of_string "sermon.transcript.txt" := "Cached text." ]>
             {[ sermon := "bytes" ]}) [] [].

(** The same, with the sped-up file already in place. *)
Definition sped_world : World :=
  mkWorld (<[ PathOps.of_string "sermon.x1.1.mp3" := "old sped-up bytes" ]>
             {[ sermon := "bytes" ]}) [] [].

(** Collaborators with fixed answers, each of which may be a failure. *)
Definition fixed_env (probe : exn + Q) (transcode transcribe summarize
                                        : exn + string) : Env :=
  mkEnv (λ _ _, inr "measured") (λ _, probe)
        (λ _ _, transcode)
        (λ _ _ _ _, transcribe)
        (λ _ _ _ _, summarize).

(** * Properties *)

(** ** The definitions on concrete inputs *)

Example new_speed_3200 : new_speed (3200 # 1) = (22 # 10).
Proof. reflexivity. Qed.

Example new_speed_1501 : new_speed (1501 # 1) = (11 # 10).
Proof. reflexivity. Qed.

Example float_str_tenths :
  float_str (11 # 10) = "1.1" ∧ float_str (20 # 10) = "2.0"
  ∧ float_str (1501 # 1) = "1501.0" ∧ float_str (3200123456 # 1000000) = "3200.123456".
Proof. vm_compute. auto. Qed.

Example with_suffix_examples :
  PathOps.with_suffix (PathOps.of_string "audio/sermon.mp3") ".x1.1.mp3"
  = inr (PathOps.of_string "audio/sermon.x1.1.mp3")
  ∧ PathOps.with_suffix (PathOps.of_string "/a/b.tar.gz") ".transcript.txt"
    = inr (PathOps.of_string "/a/b.tar.transcript.txt")
  ∧ PathOps.with_suffix (PathOps.of_string ".bashrc") ".txt"
    = inr (PathOps.of_string ".bashrc.txt")
  ∧ PathOps.with_suffix (PathOps.of_string "/") ".txt"
    = inl (Exception "PosixPath('/') has an empty name")
  ∧ PathOps.str (PathOps.of_string "a//b/./c.") = "a/b/c.".
Proof. vm_compute. auto 10. Qed.

(** Two runs on a 1501 second file: the first transcodes, transcribes and
    summarizes; the second reuses both files and only summarizes. *)
Example demo_two_runs :
  let E := demo_env (1501 # 1) in
  let args := mkArgs "sermon.mp3" None in
  let r1 := main E args demo_world in
  let r2 := main E args r1.2 in
  r1.1 = 0%Z
  ∧ is_subprocess <$> trace r1.2 = [true; true; false; false]
  ∧ is_transcription_call <$> trace r1.2 = [false; false; true; false]
  ∧ r2.1 = 0%Z
  ∧ List.skipn 4 (trace r2.2)
    = [ Subprocess (ffprobe_command sermon);
        ResponsesCreate "gpt-4.1" "user"
          (summary_content default_instruction "Hello world.") ].
Proof. vm_compute. auto 10. Qed.

(** ** The speed factor *)

Lemma new_speed_tenths (d : Q) :
  new_speed d = (Qceiling (d / 1500 * 10) * 1 # 10)%Q.
Proof. reflexivity. Qed.

Lemma new_speed_covers (d : Q) : (d / 1500 <= new_speed d)%Q.
Proof.
  unfold new_speed, WHISPER1_MAX_AUDIO_DURATION_SEC.
  pose proof (Qle_ceiling (d / inject_Z 1500 * inject_Z 10)) as H.
  set (k := inject_Z (Qceiling (d / inject_Z 1500 * inject_Z 10))) in *.
  apply Qle_shift_div_l; [reflexivity|]. exact H.
Qed.

Lemma new_speed_tight (d : Q) : (new_speed d - 1 / 10 < d / 1500)%Q.
Proof.
  unfold new_speed, WHISPER1_MAX_AUDIO_DURATION_SEC.
  change (inject_Z 1500) with 1500%Q. change (inject_Z 10) with 10%Q.
  pose proof (Qceiling_lt (d / 1500 * 10)) as H.
  unfold Z.sub in H; rewrite inject_Z_plus, inject_Z_opp in H.
  change (inject_Z 1) with 1%Q in H.
  generalize dependent (inject_Z (Qceiling (d / 1500 * 10))).
  generalize (d / 1500)%Q. intros x k H.
  assert (k / 10 == k * (1 # 10))%Q as -> by field.
  assert (1 / 10 == (1 # 10))%Q as -> by reflexivity.
  lra.
Qed.

Lemma new_speed_gt_1 (d : Q) : (1500 < d)%Q → (1 < new_speed d)%Q.
Proof.
  intros Hd.
  pose proof (new_speed_covers d) as H.
  apply Qlt_le_trans with (d / 1500)%Q; [|exact H].
  apply Qlt_shift_div_l; [reflexivity|]. lra.
Qed.


(** ** Strings *)

Section StringFacts.
Import PyStr.

Lemma startswith_app (p s : string) : startswith p (p +:+ s) = true.
Proof. induction p as [|a p IH]; simpl; [done|]. by rewrite Ascii.eqb_refl. Qed.

Lemma contains_here (p s : string) : contains p (p +:+ s) = true.
Proof. destruct p; simpl; [by destruct s|]. by rewrite Ascii.eqb_refl, startswith_app. Qed.

Lemma contains_app_r (p a s : string) :
  contains p s = true → contains p (a +:+ s) = true.
Proof.
  intros H. induction a as [|c a IH]; simpl; [done|].
  rewrite IH. apply orb_true_r.
Qed.

Lemma length_app (a b : string) :
  String.length (a +:+ b) = (String.length a + String.length b)%nat.
Proof. induction a; simpl; auto. Qed.

Lemma drop_app (a b : string) : drop (String.length a) (a +:+ b) = b.
Proof. induction a; simpl; [by destruct b|done]. Qed.

Lemma endswith_app (a t : string) : endswith t (a +:+ t) = true.
Proof.
  unfold endswith. rewrite length_app.
  replace (String.length a + String.length t - String.length t)%nat
    with (String.length a) by lia.
  rewrite drop_app, String.eqb_refl. simpl. apply Nat.leb_le. lia.
Qed.

Lemma length_drop (n : nat) (s : string) :
  String.length (drop n s) = (String.length s - n)%nat.
Proof. revert s; induction n as [|n IH]; intros [|a s]; simpl; auto. Qed.

Lemma rfind_lt (c : ascii) (s : string) (i : nat) :
  rfind c s = Some i → (i < String.length s)%nat.
Proof.
  revert i; induction s as [|a s IH]; simpl; intros i; [done|].
  destruct (rfind c s) as [j|].
  - intros [= <-]. specialize (IH j eq_refl). lia.
  - destruct (Ascii.eqb a c); [|done]. intros [= <-]. lia.
Qed.



Lemma app_cons (x : ascii) (a b : string) :
  String x a +:+ b = String x (a +:+ b).
Proof. reflexivity. Qed.

Lemma app_assoc_str (a b c : string) : (a +:+ b) +:+ c = a +:+ (b +:+ c).
Proof.
  induction a as [|x a IH]; [done|]. by rewrite !app_cons, IH.
Qed.

Lemma startswith_app_l (p a b : string) :
  startswith p a = true → startswith p (a +:+ b) = true.
Proof.
  revert a; induction p as [|x p IH]; intros [|y a]; try done.
  rewrite app_cons. simpl.
  intros [-> H]%andb_true_iff. by rewrite (IH _ H).
Qed.

Lemma contains_app_l (p a b : string) :
  contains p a = true → contains p (a +:+ b) = true.
Proof.
  induction a as [|y a IH].
  - simpl. rewrite orb_false_r. destruct p; [by destruct b|done].
  - rewrite app_cons. simpl. intros [H|H]%orb_true_iff.
    + rewrite <- app_cons.
      by rewrite (startswith_app_l _ (String y a) b H).
    + rewrite (IH H). apply orb_true_r.
Qed.
End StringFacts.

Section FloatStr.
Import PyStr.







End FloatStr.

Section PathFacts.
Import PyStr PathOps.

Lemma replaced_suffix (p : Path) (sfx : string) :
  (if String.eqb (suffix p) "" then name p +:+ sfx
   else take (String.length (name p) - String.length (suffix p)) (name p)
        +:+ sfx)
  = stem p +:+ sfx.
Proof.
  unfold suffix, stem.
  destruct (rfind "." (name p)) as [i|] eqn:Hi; [|done].
  destruct (_ && _) eqn:Hc; [|done].
  apply rfind_lt in Hi.
  assert (String.eqb (drop i (name p)) "" = false) as ->.
  { apply String.eqb_neq. intros Heq.
    apply (f_equal String.length) in Heq. rewrite length_drop in Heq.
    simpl in Heq. lia. }
  rewrite length_drop.
  replace (String.length (name p) - (String.length (name p) - i))%nat
    with i by lia.
  done.
Qed.

Lemma with_suffix_inv (p q : Path) (sfx : string) :
  with_suffix p sfx = inr q →
  q = mkPath (root p) (removelast (parts p) ++ [stem p +:+ sfx])
  ∧ name p ≠ "".
Proof.
  unfold with_suffix. intros H.
  destruct (contains "/" sfx); [done|].
  destruct (_ || _); [done|].
  destruct (String.eqb (name p) "") eqn:Hn; [done|].
  apply String.eqb_neq in Hn. split; [|done].
  cbv zeta in H. rewrite replaced_suffix in H. by inversion H.
Qed.

Lemma with_suffix_stem (p : Path) (sfx : string) :
  contains "/" sfx = false → startswith "." sfx = true → sfx ≠ "." →
  name p ≠ "" →
  with_suffix p sfx
  = inr (mkPath (root p) (removelast (parts p) ++ [stem p +:+ sfx])).
Proof.
  intros Hs Hd Hne Hn. unfold with_suffix.
  rewrite Hs, Hd. cbv zeta. rewrite replaced_suffix.
  apply String.eqb_neq in Hne as ->. apply String.eqb_neq in Hn as ->.
  by rewrite andb_false_r.
Qed.

Lemma name_with_suffix (p q : Path) (sfx : string) :
  with_suffix p sfx = inr q → name q = stem p +:+ sfx.
Proof.
  intros [-> _]%with_suffix_inv. unfold name. simpl.
  apply last_last.
Qed.
End PathFacts.

(** ** The stages of the pipeline *)

Ltac unfold_m :=
  unfold mbind, M_bind, mret, M_ret, lift, raise, get_world, emit, print,
    path_exists, read_file, write_file.

Ltac unfold_m_in H :=
  unfold mbind, M_bind, mret, M_ret, lift, raise, get_world, emit, print,
    path_exists, read_file, write_file in H.

Lemma exists_false (w : World) (p : Path) :
  fs w !! p = None → bool_decide (is_Some (fs w !! p)) = false.
Proof. intros ->. apply bool_decide_eq_false_2. by intros [? ?]. Qed.

Lemma exists_true (w : World) (p : Path) (c : string) :
  fs w !! p = Some c → bool_decide (is_Some (fs w !! p)) = true.
Proof. intros ->. by apply bool_decide_eq_true_2. Qed.

Section Pipeline.
Variable E : Env.

Lemma get_audio_length_ok (w : World) (p : Path) (d : Q) :
  probes_to E w p d →
  get_audio_length E p w
  = (inr d, recorded w [Subprocess (ffprobe_command p)]).
Proof.
  intros (out & Hout & Hd).
  unfold get_audio_length, subprocess_check_output. unfold_m.
  by rewrite Hout, Hd.
Qed.

Lemma process_audio_file_missing (w : World) (p : Path) :
  fs w !! p = None →
  process_audio_file E p w
  = (inl (FileNotFoundError
            ("Audio file does not exist: " +:+ PathOps.str p)), w).
Proof.
  intros Hp. unfold process_audio_file. unfold_m.
  by rewrite (exists_false _ _ Hp).
Qed.

Lemma process_audio_file_short (w : World) (p : Path) (c : string) (d : Q) :
  fs w !! p = Some c → probes_to E w p d → (d <= 1500)%Q →
  process_audio_file E p w
  = (inr p, printed (probed w p d)
              ["Audio is short enough, no need to change speed."]).
Proof.
  intros Hp Hprobe Hd. unfold process_audio_file.
  unfold mbind at 1. unfold M_bind at 1. unfold path_exists at 1.
  rewrite (exists_true _ _ _ Hp). cbv [negb].
  unfold mbind at 1. unfold M_bind at 1.
  rewrite (get_audio_length_ok _ _ _ Hprobe).
  unfold_m.
  assert (Qle_bool d (inject_Z WHISPER1_MAX_AUDIO_DURATION_SEC) = true) as ->
    by (by apply Qle_bool_iff).
  reflexivity.
Qed.

Lemma long_branch (d : Q) :
  (1500 < d)%Q →
  Qle_bool d (inject_Z WHISPER1_MAX_AUDIO_DURATION_SEC) = false.
Proof.
  intros Hd. apply not_true_is_false. intros H%Qle_bool_iff.
  unfold WHISPER1_MAX_AUDIO_DURATION_SEC in H.
  change (inject_Z 1500) with 1500%Q in H. lra.
Qed.

Lemma process_audio_file_reuse (w : World) (p q : Path) (c c' : string)
    (d : Q) :
  fs w !! p = Some c → probes_to E w p d → (1500 < d)%Q →
  PathOps.with_suffix p (".x" +:+ float_str (new_speed d) +:+ ".mp3")
  = inr q →
  fs w !! q = Some c' →
  process_audio_file E p w
  = (inr q,
     printed (too_long w p d)
       ["Using existing sped up audio file: " +:+ PathOps.str q]).
Proof.
  intros Hp Hprobe Hd Hq Hex. unfold process_audio_file.
  unfold mbind at 1. unfold M_bind at 1. unfold path_exists at 1.
  rewrite (exists_true _ _ _ Hp). cbv [negb].
  unfold mbind at 1. unfold M_bind at 1.
  rewrite (get_audio_length_ok _ _ _ Hprobe).
  rewrite (long_branch _ Hd), Hq. unfold_m. unfold recorded. cbn [fs trace stdout].
  by rewrite (exists_true _ _ _ Hex).
Qed.

Lemma process_audio_file_encode (w : World) (p q : Path) (c bytes : string)
    (d : Q) :
  fs w !! p = Some c → probes_to E w p d → (1500 < d)%Q →
  PathOps.with_suffix p (".x" +:+ float_str (new_speed d) +:+ ".mp3")
  = inr q →
  fs w !! q = None →
  run_checked E (before_ffmpeg w p d) (ffmpeg_command p (new_speed d) q)
  = inr bytes →
  process_audio_file E p w
  = (inr q,
     printed
       (stored (recorded (before_ffmpeg w p d)
                  [Subprocess (ffmpeg_command p (new_speed d) q)])
               q bytes)
       ["Done. New audio file: " +:+ PathOps.str q]).
Proof.
  intros Hp Hprobe Hd Hq Hex Hrun. unfold process_audio_file.
  unfold mbind at 1. unfold M_bind at 1. unfold path_exists at 1.
  rewrite (exists_true _ _ _ Hp). cbv [negb].
  unfold mbind at 1. unfold M_bind at 1.
  rewrite (get_audio_length_ok _ _ _ Hprobe).
  rewrite (long_branch _ Hd), Hq.
  unfold change_audio_speed, subprocess_run. unfold_m.
  unfold recorded. cbn [fs trace stdout].
  rewrite (exists_false _ _ Hex).
  unfold before_ffmpeg, too_long, probed, printed, recorded in Hrun.
  cbn [fs trace stdout] in *. by rewrite Hrun.
Qed.

Lemma process_audio_file_encode_fails (w : World) (p q : Path) (c : string)
    (d : Q) (e : exn) :
  fs w !! p = Some c → probes_to E w p d → (1500 < d)%Q →
  PathOps.with_suffix p (".x" +:+ float_str (new_speed d) +:+ ".mp3")
  = inr q →
  fs w !! q = None →
  run_checked E (before_ffmpeg w p d) (ffmpeg_command p (new_speed d) q)
  = inl e →
  process_audio_file E p w
  = (inl e,
     recorded (before_ffmpeg w p d)
       [Subprocess (ffmpeg_command p (new_speed d) q)]).
Proof.
  intros Hp Hprobe Hd Hq Hex Hrun. unfold process_audio_file.
  unfold mbind at 1. unfold M_bind at 1. unfold path_exists at 1.
  rewrite (exists_true _ _ _ Hp). cbv [negb].
  unfold mbind at 1. unfold M_bind at 1.
  rewrite (get_audio_length_ok _ _ _ Hprobe).
  rewrite (long_branch _ Hd), Hq.
  unfold change_audio_speed, subprocess_run. unfold_m.
  unfold recorded. cbn [fs trace stdout].
  rewrite (exists_false _ _ Hex).
  unfold before_ffmpeg, too_long, probed, printed, recorded in Hrun.
  cbn [fs trace stdout] in *. by rewrite Hrun.
Qed.

(** *** [get_transcript] *)

Lemma get_transcript_hit (w : World) (p tf : Path) (c : string) :
  PathOps.with_suffix p ".transcript.txt" = inr tf →
  fs w !! tf = Some c →
  get_transcript E p w
  = (inr c, printed w ["Using existing transcription: "
                       +:+ PathOps.str tf]).
Proof.
  intros Htf Hc. unfold get_transcript. rewrite Htf. unfold_m.
  rewrite (exists_true _ _ _ Hc). cbn [fs]. by rewrite Hc.
Qed.

Lemma get_transcript_miss (w : World) (p tf : Path) (bytes t : string) :
  PathOps.with_suffix p ".transcript.txt" = inr tf →
  fs w !! tf = None →
  fs w !! p = Some bytes →
  transcriptions_create E (transcribing w p) "whisper-1" p bytes = inr t →
  get_transcript E p w
  = (inr t,
     printed
       (stored (recorded (transcribing w p)
                  [TranscriptionsCreate "whisper-1" p]) tf t)
       ["Transcription saved to: " +:+ PathOps.str tf]).
Proof.
  intros Htf Hc Hp Hapi. unfold get_transcript, transcribe_audio.
  rewrite Htf. unfold_m. rewrite (exists_false _ _ Hc). cbn [fs trace stdout].
  rewrite Hp. unfold transcribing, printed in Hapi. by rewrite Hapi.
Qed.

Lemma get_transcript_miss_fails (w : World) (p tf : Path) (bytes : string)
    (e : exn) :
  PathOps.with_suffix p ".transcript.txt" = inr tf →
  fs w !! tf = None →
  fs w !! p = Some bytes →
  transcriptions_create E (transcribing w p) "whisper-1" p bytes = inl e →
  get_transcript E p w
  = (inl e, recorded (transcribing w p)
              [TranscriptionsCreate "whisper-1" p]).
Proof.
  intros Htf Hc Hp Hapi. unfold get_transcript, transcribe_audio.
  rewrite Htf. unfold_m. rewrite (exists_false _ _ Hc). cbn [fs trace stdout].
  rewrite Hp. unfold transcribing, printed in Hapi. by rewrite Hapi.
Qed.

(** *** [transcribe_audio] and [summarize_text] *)

Lemma transcribe_audio_run (w : World) (p : Path) (bytes : string) :
  fs w !! p = Some bytes →
  transcribe_audio E p w
  = (transcriptions_create E w "whisper-1" p bytes,
     recorded w [TranscriptionsCreate "whisper-1" p]).
Proof.
  intros Hp. unfold transcribe_audio. unfold_m. rewrite Hp.
  by destruct (transcriptions_create E w "whisper-1" p bytes).
Qed.

Lemma summarize_text_run (w : World) (text : string) (i : option string) :
  summarize_text E text i w
  = (responses_create E w "gpt-4.1" "user"
       (summary_content (choose_instruction i) text),
     recorded w
       [ResponsesCreate "gpt-4.1" "user"
          (summary_content (choose_instruction i) text)]).
Proof.
  unfold summarize_text. unfold_m.
  by destruct (responses_create E w _ _ _).
Qed.

Lemma generate_and_save_summary_trace (w : World) (p : Path)
    (t : string) (i : option string) :
  trace (generate_and_save_summary E p t i w).2
  = trace w ++ [ResponsesCreate "gpt-4.1" "user"
                  (summary_content (choose_instruction i) t)].
Proof.
  unfold generate_and_save_summary.
  unfold mbind at 1. unfold M_bind at 1. unfold print at 1.
  unfold mbind at 1. unfold M_bind at 1.
  rewrite summarize_text_run.
  destruct (responses_create E _ _ _ _) as [e|s]; [done|].
  unfold_m. by destruct (PathOps.with_suffix p ".summary.txt").
Qed.

(** *** Which calls a stage can make *)

Lemma process_audio_file_calls (w : World) (p : Path) :
  ∃ evs, trace (process_audio_file E p w).2 = trace w ++ evs
         ∧ Forall (λ ev, is_subprocess ev = true) evs.
Proof.
  unfold process_audio_file, get_audio_length, subprocess_check_output,
    change_audio_speed, subprocess_run.
  unfold_m. repeat case_match; simplify_eq/=;
    rewrite <- ?(assoc_L (++)); 
    first [ by (exists []; rewrite (right_id_L [] (++)))
          | eexists; split; [reflexivity | by repeat constructor] ].
Qed.

Lemma get_transcript_calls (w : World) (p : Path) :
  ∃ evs, trace (get_transcript E p w).2 = trace w ++ evs
         ∧ Forall (λ ev, is_transcription_call ev = true) evs.
Proof.
  unfold get_transcript, transcribe_audio.
  unfold_m. repeat case_match; simplify_eq/=;
    rewrite <- ?(assoc_L (++)); 
    first [ by (exists []; rewrite (right_id_L [] (++)))
          | eexists; split; [reflexivity | by repeat constructor] ].
Qed.

Lemma filter_calls_none (f g : event → bool) (evs : list event) :
  (∀ ev, g ev = true → f ev = false) →
  Forall (λ ev, g ev = true) evs → List.filter f evs = [].
Proof.
  intros Hfg. induction 1 as [|ev evs Hev _ IH]; simpl; [done|].
  by rewrite (Hfg _ Hev).
Qed.

(** *** [main] *)

Lemma main_body_stages (args : Args) (w : World) :
  main_body E args w
  = match process_audio_file E (PathOps.of_string (audio_file args)) w with
    | (inl e, w1) => (inl e, w1)
    | (inr q, w1) =>
        match get_transcript E q w1 with
        | (inl e, w2) => (inl e, w2)
        | (inr t, w2) =>
            generate_and_save_summary E q t (instructions args) w2
        end
    end.
Proof.
  unfold main_body, mbind, M_bind.
  destruct (process_audio_file E _ w) as [[e|q] w1]; [done|].
  by destruct (get_transcript E q w1) as [[e|t] w2].
Qed.

Lemma main_trace (args : Args) (w : World) :
  trace (main E args w).2 = trace (main_body E args w).2.
Proof.
  unfold main. by destruct (main_body E args w) as [[[msg|msg]|[]] w'].
Qed.

Lemma main_fs (args : Args) (w : World) :
  fs (main E args w).2 = fs (main_body E args w).2.
Proof.
  unfold main. by destruct (main_body E args w) as [[[msg|msg]|[]] w'].
Qed.

Lemma main_code (args : Args) (w : World) :
  (main E args w).1
  = match (main_body E args w).1 with inr _ => 0%Z | inl _ => 1%Z end.
Proof.
  unfold main. by destruct (main_body E args w) as [[[msg|msg]|[]] w'].
Qed.
End Pipeline.

(** ** Outcomes of the stages, and a second run *)

Section Runs.
Variable E : Env.

Lemma process_audio_file_long_result (w : World) (p q : Path) (c : string)
    (d : Q) :
  fs w !! p = Some c → probes_to E w p d → (1500 < d)%Q →
  (process_audio_file E p w).1 = inr q →
  PathOps.with_suffix p (".x" +:+ float_str (new_speed d) +:+ ".mp3")
  = inr q.
Proof.
  intros Hp Hprobe Hd.
  destruct (PathOps.with_suffix p _) as [e|q'] eqn:Hq.
  - unfold process_audio_file.
    unfold mbind at 1. unfold M_bind at 1. unfold path_exists at 1.
    rewrite (exists_true _ _ _ Hp). cbv [negb].
    unfold mbind at 1. unfold M_bind at 1.
    rewrite (get_audio_length_ok _ _ _ _ Hprobe).
    rewrite (long_branch _ Hd), Hq. unfold_m. done.
  - destruct (fs w !! q') as [c'|] eqn:Hex.
    + rewrite (process_audio_file_reuse _ _ _ _ _ _ _ Hp Hprobe Hd Hq Hex).
      by intros [= ->].
    + destruct (run_checked E (before_ffmpeg w p d)
                  (ffmpeg_command p (new_speed d) q')) as [e|b] eqn:Hrun.
      * by rewrite (process_audio_file_encode_fails _ _ _ _ _ _ _
                      Hp Hprobe Hd Hq Hex Hrun).
      * rewrite (process_audio_file_encode _ _ _ _ _ _ _
                      Hp Hprobe Hd Hq Hex Hrun).
        by intros [= ->].
Qed.

Lemma process_audio_file_keeps (w : World) (p x : Path) :
  is_Some (fs w !! x) → is_Some (fs (process_audio_file E p w).2 !! x).
Proof.
  intros Hx.
  unfold process_audio_file, get_audio_length, subprocess_check_output,
    change_audio_speed, subprocess_run.
  unfold_m. repeat case_match; simplify_eq/=; try done.
  apply lookup_insert_is_Some'. by right.
Qed.

Lemma process_audio_file_probes (w w1 : World) (p q : Path) :
  process_audio_file E p w = (inr q, w1) →
  ∃ c d, fs w !! p = Some c ∧ probes_to E w p d.
Proof.
  destruct (fs w !! p) as [c|] eqn:Hp;
    [|by rewrite (process_audio_file_missing _ _ _ Hp)].
  intros H. exists c.
  unfold process_audio_file, get_audio_length, subprocess_check_output in H.
  unfold_m_in H. rewrite (exists_true _ _ _ Hp) in H.
  cbn [negb fs trace stdout] in H. unfold probes_to.
  destruct (check_output E w (ffprobe_command p)) as [e|out] eqn:Hout;
    [done|].
  destruct (float_of_output E out) as [e|d] eqn:Hd; [done|].
  eauto.
Qed.

Lemma process_audio_file_success (w w1 : World) (p q : Path) (c : string)
    (d : Q) :
  fs w !! p = Some c → probes_to E w p d →
  process_audio_file E p w = (inr q, w1) →
  ((d <= 1500)%Q ∧ q = p)
  ∨ ((1500 < d)%Q
     ∧ PathOps.with_suffix p (".x" +:+ float_str (new_speed d) +:+ ".mp3")
       = inr q
     ∧ is_Some (fs w1 !! q)).
Proof.
  intros Hp Hprobe H.
  destruct (Qlt_le_dec 1500 d) as [Hd|Hd].
  - right. split; [done|].
    assert (PathOps.with_suffix p
              (".x" +:+ float_str (new_speed d) +:+ ".mp3") = inr q) as Hq.
    { apply (process_audio_file_long_result w p q c d); try done.
      by rewrite H. }
    split; [done|].
    destruct (fs w !! q) as [c'|] eqn:Hex.
    + rewrite (process_audio_file_reuse _ _ _ _ _ _ _ Hp Hprobe Hd Hq Hex)
        in H.
      injection H as <-. cbn [printed too_long probed recorded fs].
      by rewrite Hex.
    + destruct (run_checked E (before_ffmpeg w p d)
                  (ffmpeg_command p (new_speed d) q)) as [e|b] eqn:Hrun.
      * by rewrite (process_audio_file_encode_fails _ _ _ _ _ _ _
                      Hp Hprobe Hd Hq Hex Hrun) in H.
      * rewrite (process_audio_file_encode _ _ _ _ _ _ _
                      Hp Hprobe Hd Hq Hex Hrun) in H.
        injection H as <-. cbn [printed stored fs].
        rewrite lookup_insert_eq. by eexists.
  - left. split; [done|].
    rewrite (process_audio_file_short _ _ _ _ _ Hp Hprobe Hd) in H.
    by injection H as <- _.
Qed.

Lemma process_audio_file_again (w : World) (p q : Path) (c : string)
    (d : Q) :
  fs w !! p = Some c → probes_to E w p d →
  ((d <= 1500)%Q ∧ q = p)
  ∨ ((1500 < d)%Q
     ∧ PathOps.with_suffix p (".x" +:+ float_str (new_speed d) +:+ ".mp3")
       = inr q
     ∧ is_Some (fs w !! q)) →
  ∃ w', process_audio_file E p w = (inr q, w') ∧ fs w' = fs w.
Proof.
  intros Hp Hprobe [[Hd ->]|(Hd & Hq & [c' Hex])].
  - rewrite (process_audio_file_short _ _ _ _ _ Hp Hprobe Hd). by eexists.
  - rewrite (process_audio_file_reuse _ _ _ _ _ _ _ Hp Hprobe Hd Hq Hex).
    by eexists.
Qed.

Lemma get_transcript_success (w w' : World) (p : Path) (t : string) :
  get_transcript E p w = (inr t, w') →
  ∃ tf, PathOps.with_suffix p ".transcript.txt" = inr tf
        ∧ is_Some (fs w' !! tf)
        ∧ ∀ x, is_Some (fs w !! x) → is_Some (fs w' !! x).
Proof.
  intros H.
  destruct (PathOps.with_suffix p ".transcript.txt") as [e|tf] eqn:Htf.
  { unfold get_transcript in H. rewrite Htf in H. by unfold_m_in H. }
  exists tf. split; [done|].
  destruct (fs w !! tf) as [c|] eqn:Hc.
  - rewrite (get_transcript_hit _ _ _ _ _ Htf Hc) in H.
    injection H as <- <-. cbn [printed fs]. rewrite Hc. eauto.
  - destruct (fs w !! p) as [bytes|] eqn:Hp.
    + destruct (transcriptions_create E (transcribing w p) "whisper-1" p
                  bytes) as [e|t'] eqn:Hapi.
      * by rewrite (get_transcript_miss_fails _ _ _ _ _ _ Htf Hc Hp Hapi)
          in H.
      * rewrite (get_transcript_miss _ _ _ _ _ _ Htf Hc Hp Hapi) in H.
        injection H as <- <-. cbn [printed stored fs].
        split; [rewrite lookup_insert_eq; by eexists|].
        intros x Hx. apply lookup_insert_is_Some'. by right.
    + unfold get_transcript, transcribe_audio in H. rewrite Htf in H.
      unfold_m_in H. rewrite (exists_false _ _ Hc) in H.
      cbn [fs trace stdout] in H. by rewrite Hp in H.
Qed.

Lemma generate_and_save_summary_keeps (w : World) (p : Path) (t : string)
    (i : option string) (x : Path) :
  is_Some (fs w !! x) →
  is_Some (fs (generate_and_save_summary E p t i w).2 !! x).
Proof.
  intros Hx. unfold generate_and_save_summary, summarize_text. unfold_m.
  repeat case_match; simplify_eq/=; try done.
  apply lookup_insert_is_Some'. by right.
Qed.

Lemma main_cache_hit (args : Args) (w w1 : World) (q tf : Path)
    (c : string) :
  process_audio_file E (PathOps.of_string (audio_file args)) w
  = (inr q, w1) →
  PathOps.with_suffix q ".transcript.txt" = inr tf →
  fs w1 !! tf = Some c →
  List.filter is_transcription_call (trace (main E args w).2)
  = List.filter is_transcription_call (trace w).
Proof.
  intros Hproc Htf Hc.
  rewrite main_trace, main_body_stages, Hproc.
  rewrite (get_transcript_hit _ _ _ _ _ Htf Hc).
  rewrite generate_and_save_summary_trace. cbn [printed trace].
  destruct (process_audio_file_calls E w
              (PathOps.of_string (audio_file args))) as (evs & Hevs & Hsub).
  rewrite Hproc in Hevs. cbn [snd] in Hevs. rewrite Hevs.
  rewrite !List.filter_app. cbn [List.filter is_transcription_call].
  rewrite (filter_calls_none is_transcription_call is_subprocess evs);
    [by rewrite !(right_id_L [] (++)) | by intros [] | done].
Qed.

Lemma second_run_no_transcription (args : Args) (w : World) (q : Path)
    (w1 : World) (t : string) (w2 : World) :
  let a := PathOps.of_string (audio_file args) in
  let w' := (main E args w).2 in
  process_audio_file E a w = (inr q, w1) →
  get_transcript E q w1 = (inr t, w2) →
  (∀ d, probes_to E w a d → probes_to E w' a d) →
  List.filter is_transcription_call (trace (main E args w').2)
  = List.filter is_transcription_call (trace w').
Proof.
  intros a w' Hproc Hget Hsame. subst w'.
  pose proof (main_fs E args w) as Hfs.
  revert Hfs Hsame. generalize (main E args w).2 as w3.
  intros w3. rewrite main_body_stages. fold a. rewrite Hproc, Hget.
  intros Hfs Hsame.
  destruct (process_audio_file_probes _ _ _ _ Hproc)
    as (c & d & Hp & Hprobe).
  pose proof (process_audio_file_success _ _ _ _ _ _ Hp Hprobe Hproc)
    as Hcase.
  destruct (get_transcript_success _ _ _ _ Hget)
    as (tf & Htf & Hex & Hmono).
  assert (∀ x, is_Some (fs w1 !! x) → is_Some (fs w3 !! x)) as Hkeep.
  { intros x Hx. rewrite Hfs.
    by apply generate_and_save_summary_keeps, Hmono. }
  assert (∀ x, is_Some (fs w !! x) → is_Some (fs w1 !! x)) as Hkeep0.
  { intros x Hx. pose proof (process_audio_file_keeps w a x Hx) as Hk.
    by rewrite Hproc in Hk. }
  destruct (Hkeep a (Hkeep0 a (mk_is_Some _ _ Hp))) as [c3 Hp3].
  destruct (process_audio_file_again w3 a q c3 d Hp3 (Hsame d Hprobe))
    as (w4 & Hagain & Hfs4).
  { destruct Hcase as [?|(Hd & Hq & Hq1)]; [by left|].
    right. split_and!; [done..|]. by apply Hkeep. }
  assert (is_Some (fs w4 !! tf)) as [c4 Hc4].
  { rewrite Hfs4, Hfs.
    by apply generate_and_save_summary_keeps. }
  by apply (main_cache_hit args w3 w4 q tf c4).
Qed.
End Runs.

(** * The specification, claim by claim *)

Section Claims.
Variable E : Env.



(** C3.  When the prober measures at most 1500 seconds,
    [process_audio_file] returns the path it was given, starts no
    transcoder, leaves the files as they are, and the later stages of
    [main] run on that same path. *)
Theorem C3_short_audio_passes_through (w : World) (p : Path) (c : string)
    (d : Q) :
  fs w !! p = Some c → probes_to E w p d → (d <= 1500)%Q →
  let r := process_audio_file E p w in
  r.1 = inr p
  ∧ trace r.2 = trace w ++ [Subprocess (ffprobe_command p)]
  ∧ List.filter is_ffmpeg (trace r.2) = List.filter is_ffmpeg (trace w)
  ∧ fs r.2 = fs w
  ∧ ∀ args, PathOps.of_string (audio_file args) = p →
      main_body E args w
      = (transcript ← get_transcript E p;
         generate_and_save_summary E p transcript (instructions args)) r.2.
Proof.
  intros Hp Hprobe Hd r. subst r.
  rewrite (process_audio_file_short _ _ _ _ _ Hp Hprobe Hd).
  cbn [fst snd printed probed recorded fs trace stdout].
  repeat split.
  - rewrite List.filter_app.
    change (List.filter is_ffmpeg [Subprocess (ffprobe_command p)])
      with (@nil event).
    by rewrite (right_id_L [] (++)).
  - intros args <-. unfold main_body. unfold mbind at 1. unfold M_bind at 1.
    by rewrite (process_audio_file_short _ _ _ _ _ Hp Hprobe Hd).
Qed.

(** C4.  The transcript of an audio file lives at its stem plus
    [.transcript.txt].  When that file exists, [get_transcript] returns its
    contents, whatever they are, and calls nothing; a run of [main] that
    finds it makes no transcription call.  When it does not exist the
    transcriber is called once and its text stored there, and calling
    [get_transcript] again returns the stored text without a call.  So when
    a first run of [main] obtained a transcript and the prober answers the
    second run as it answered the first, the second run makes no
    transcription call. *)
Theorem C4_transcript_cache :
  (∀ w p tf c,
     PathOps.with_suffix p ".transcript.txt" = inr tf →
     fs w !! tf = Some c →
     PathOps.name tf = PathOps.stem p +:+ ".transcript.txt"
     ∧ get_transcript E p w
       = (inr c, printed w ["Using existing transcription: "
                            +:+ PathOps.str tf]))
  ∧ (∀ args w w1 p tf c,
       process_audio_file E (PathOps.of_string (audio_file args)) w
       = (inr p, w1) →
       PathOps.with_suffix p ".transcript.txt" = inr tf →
       fs w1 !! tf = Some c →
       List.filter is_transcription_call (trace (main E args w).2)
       = List.filter is_transcription_call (trace w))
  ∧ (∀ w p tf bytes t,
       PathOps.with_suffix p ".transcript.txt" = inr tf →
       fs w !! tf = None → fs w !! p = Some bytes →
       transcriptions_create E (transcribing w p) "whisper-1" p bytes
       = inr t →
       let r := get_transcript E p w in
       r.1 = inr t
       ∧ trace r.2 = trace w ++ [TranscriptionsCreate "whisper-1" p]
       ∧ fs r.2 = <[tf := t]> (fs w)
       ∧ let r' := get_transcript E p r.2 in
         r'.1 = inr t ∧ trace r'.2 = trace r.2 ∧ fs r'.2 = fs r.2)
  ∧ (∀ args w p w1 t w2,
       let a := PathOps.of_string (audio_file args) in
       let w' := (main E args w).2 in
       process_audio_file E a w = (inr p, w1) →
       get_transcript E p w1 = (inr t, w2) →
       (∀ d, probes_to E w a d → probes_to E w' a d) →
       List.filter is_transcription_call (trace (main E args w').2)
       = List.filter is_transcription_call (trace w')).
Proof.
  split_and!.
  - intros w p tf c Htf Hc.
    split; [by apply name_with_suffix | by apply get_transcript_hit].
  - intros args w w1 p tf c Hproc Htf Hc.
    by apply (main_cache_hit E args w w1 p tf c).
  - intros w p tf bytes t Htf Hc Hp Hapi r. subst r.
    rewrite (get_transcript_miss _ _ _ _ _ _ Htf Hc Hp Hapi).
    cbn [fst snd printed stored recorded transcribing fs trace stdout].
    repeat split.
    all: erewrite get_transcript_hit;
      [ | exact Htf | cbn [fs]; apply lookup_insert_eq ]; done.
  - intros args w p w1 t w2 a w' Hproc Hget Hsame.
    by apply (second_run_no_transcription E args w p w1 t w2).
Qed.

(** C5.  [generate_and_save_summary] asks for a summary in every world,
    whatever files exist.  A run of [main] therefore ends in one of three
    ways: [process_audio_file] raised, or [get_transcript] raised, and
    then the exit code is 1 and no summary was requested; or both
    returned, and then exactly one summary request was made, for the
    transcript obtained. *)
Theorem C5_summary_always_requested (args : Args) (w : World) :
  let p := PathOps.of_string (audio_file args) in
  let request t :=
    ResponsesCreate "gpt-4.1" "user"
      (summary_content (choose_instruction (instructions args)) t) in
  let r := main E args w in
  (∀ q t i w0,
     trace (generate_and_save_summary E q t i w0).2
     = trace w0 ++ [ResponsesCreate "gpt-4.1" "user"
                      (summary_content (choose_instruction i) t)])
  ∧ ((∃ e w1, process_audio_file E p w = (inl e, w1)
              ∧ r.1 = 1%Z
              ∧ List.filter is_summary_call (trace r.2)
                = List.filter is_summary_call (trace w))
     ∨ (∃ q w1 e w2, process_audio_file E p w = (inr q, w1)
              ∧ get_transcript E q w1 = (inl e, w2)
              ∧ r.1 = 1%Z
              ∧ List.filter is_summary_call (trace r.2)
                = List.filter is_summary_call (trace w))
     ∨ (∃ q w1 t w2, process_audio_file E p w = (inr q, w1)
              ∧ get_transcript E q w1 = (inr t, w2)
              ∧ trace r.2 = trace w2 ++ [request t]
              ∧ List.filter is_summary_call (trace r.2)
                = List.filter is_summary_call (trace w) ++ [request t])).
Proof.
  intros p request r.
  split; [intros; apply generate_and_save_summary_trace|].
  subst r. rewrite main_trace, main_code, main_body_stages. fold p.
  destruct (process_audio_file_calls E w p) as (evs & Hevs & Hsub).
  assert (List.filter is_summary_call evs = []) as Hnone1
    by (apply (filter_calls_none _ is_subprocess); [by intros []|done]).
  destruct (process_audio_file E p w) as [[e|q] w1] eqn:Hproc.
  { left. exists e, w1. cbn [fst snd] in *.
    by rewrite Hevs, List.filter_app, Hnone1, (right_id_L [] (++)). }
  right.
  destruct (get_transcript_calls E w1 q) as (evs' & Hevs' & Htr).
  assert (List.filter is_summary_call evs' = []) as Hnone2
    by (apply (filter_calls_none _ is_transcription_call);
        [by intros []|done]).
  destruct (get_transcript E q w1) as [[e|t] w2] eqn:Hget.
  { left. exists q, w1, e, w2. cbn [fst snd] in *.
    by rewrite Hevs', Hevs, !List.filter_app, Hnone1, Hnone2,
         !(right_id_L [] (++)). }
  right. exists q, w1, t, w2. cbn [fst snd] in *.
  rewrite generate_and_save_summary_trace. fold (request t).
  split_and!; [done..|].
  by rewrite Hevs', Hevs, !List.filter_app, Hnone1, Hnone2,
       !(right_id_L [] (++)).
Qed.

(** C6.  On a path that does not exist [main] returns 1 and prints one
    line, [Error: Audio file does not exist: ] followed by the path; it
    starts no subprocess, calls no API and writes no file. *)
Theorem C6_missing_source (args : Args) (w : World) :
  let p := PathOps.of_string (audio_file args) in
  fs w !! p = None →
  let r := main E args w in
  r.1 = 1%Z
  ∧ stdout r.2
    = stdout w ++ ["Error: Audio file does not exist: " +:+ PathOps.str p]
  ∧ PyStr.endswith (PathOps.str p)
      ("Error: Audio file does not exist: " +:+ PathOps.str p) = true
  ∧ trace r.2 = trace w
  ∧ fs r.2 = fs w.
Proof.
  intros p Hp r.
  assert (r = (1%Z, printed w ["Error: Audio file does not exist: "
                               +:+ PathOps.str p])) as ->.
  { subst r. unfold main. rewrite main_body_stages. fold p.
    by rewrite (process_audio_file_missing _ _ _ Hp). }
  cbn [fst snd printed fs trace stdout].
  split_and!; [done..| |done|done].
  apply endswith_app.
Qed.


(** C8.  With the default instruction, the content sent to the
    summarization API contains the sentence
    [Start it with a question to the listener.], asks for an SEO
    keyphrase, and ends with the transcript. *)
Theorem C8_default_prompt (text : string) (w : World) :
  let content := summary_content default_instruction text in
  PyStr.contains "Start it with a question to the listener." content = true
  ∧ PyStr.contains "Also generate an SEO keyphrase" content = true
  ∧ PyStr.endswith text content = true
  ∧ trace (summarize_text E text None w).2
    = trace w ++ [ResponsesCreate "gpt-4.1" "user" content].
Proof.
  intros content. subst content. unfold summary_content.
  split_and!.
  - do 2 apply contains_app_r. rewrite !app_assoc_str.
    apply contains_here.
  - do 3 apply contains_app_r. apply contains_app_l. reflexivity.
  - rewrite <- !app_assoc_str. apply endswith_app.
  - by rewrite summarize_text_run.
Qed.

(** C9.  [transcribe_audio] hands every file it can open to the
    transcription API and returns what the API answers: the outcome does
    not depend on the size of the file, and the 25 MB constant takes no
    part in it.  An exception on an existing file is the API's own. *)
Theorem C9_no_size_guard (w : World) (p : Path) (bytes : string) :
  fs w !! p = Some bytes →
  GPT40_MAX_AUDIO_SIZE_BYTES = (25 * 1024 * 1024)%Z
  ∧ transcribe_audio E p w
    = (transcriptions_create E w "whisper-1" p bytes,
       recorded w [TranscriptionsCreate "whisper-1" p])
  ∧ ∀ e, (transcribe_audio E p w).1 = inl e →
         transcriptions_create E w "whisper-1" p bytes = inl e.
Proof.
  intros Hp. split; [reflexivity|].
  rewrite (transcribe_audio_run _ _ _ _ Hp). by split.
Qed.

End Claims.

(** * The statements on the fixed scenario *)

Lemma demo_probe (dur : Q) (w : World) (p : Path) :
  probes_to (demo_env dur) w p dur.
Proof. exists "measured". split; reflexivity. Defined.



Lemma C3_short_audio_passes_through_witness :
  let E := demo_env (1200 # 1) in
  (process_audio_file E sermon demo_world).1 = inr sermon
  ∧ List.filter is_ffmpeg (trace (process_audio_file E sermon demo_world).2)
    = []
  ∧ main_body E (mkArgs "sermon.mp3" None) demo_world
    = (transcript ← get_transcript E sermon;
       generate_and_save_summary E sermon transcript None)
        (process_audio_file E sermon demo_world).2.
Proof.
  intros E.
  assert ((1200 # 1) <= 1500)%Q as Hle by (by vm_compute).
  destruct (C3_short_audio_passes_through E demo_world
              sermon "bytes" (1200 # 1) eq_refl (demo_probe _ _ _) Hle)
    as (Hret & _ & Hff & _ & Hmain).
  split; [exact Hret|]. split; [exact Hff|].
  exact (Hmain (mkArgs "sermon.mp3" None) eq_refl).
Defined.

Lemma C4_transcript_cache_witness :
  let E := demo_env (1200 # 1) in
  let args := mkArgs "sermon.mp3" None in
  (get_transcript E sermon cached_world).1 = inr "Cached text."
  ∧ List.filter is_transcription_call (trace (main E args cached_world).2)
    = []
  ∧ (let r := get_transcript E sermon demo_world in
     r.1 = inr "Hello world."
     ∧ trace r.2 = [TranscriptionsCreate "whisper-1" sermon]
     ∧ trace (get_transcript E sermon r.2).2 = trace r.2)
  ∧ List.filter is_transcription_call
      (trace (main E args (main E args demo_world).2).2)
    = List.filter is_transcription_call (trace (main E args demo_world).2).
Proof.
  intros E args.
  pose (tf := PathOps.of_string "sermon.transcript.txt").
  assert ((1200 # 1) <= 1500)%Q as Hle by (by vm_compute).
  split_and!.
  - destruct (proj1 (C4_transcript_cache E) cached_world sermon tf
                "Cached text." eq_refl eq_refl) as [_ Hhit].
    by rewrite Hhit.
  - exact (proj1 (proj2 (C4_transcript_cache E))
             args cached_world _ sermon tf "Cached text."
             (process_audio_file_short E cached_world sermon "bytes"
                (1200 # 1) eq_refl (demo_probe _ _ _) Hle)
             eq_refl eq_refl).
  - destruct (proj1 (proj2 (proj2 (C4_transcript_cache E)))
                demo_world sermon tf "bytes" "Hello world."
                eq_refl eq_refl eq_refl eq_refl)
      as (Hret & Htrace & _ & _ & Hagain & _).
    split; [exact Hret|]. split; [exact Htrace | exact Hagain].
  - pose (w1 := printed (probed demo_world sermon (1200 # 1))
                   ["Audio is short enough, no need to change speed."]).
    refine (proj2 (proj2 (proj2 (C4_transcript_cache E)))
              args demo_world sermon w1 "Hello world." _
              (process_audio_file_short E demo_world sermon "bytes"
                 (1200 # 1) eq_refl (demo_probe _ _ _) Hle)
              (get_transcript_miss E w1 sermon tf "bytes" "Hello world."
                 eq_refl eq_refl eq_refl eq_refl)
              _).
    intros d (out & Hout & Hd). exists out. split; [exact Hout | exact Hd].
Defined.

Lemma C6_missing_source_witness :
  let r := main (demo_env (1501 # 1)) (mkArgs "nope.mp3" None) demo_world in
  r.1 = 1%Z
  ∧ stdout r.2 = ["Error: Audio file does not exist: nope.mp3"]
  ∧ trace r.2 = [].
Proof.
  destruct (C6_missing_source (demo_env (1501 # 1)) (mkArgs "nope.mp3" None)
              demo_world eq_refl) as (Hcode & Hout & _ & Htrace & _).
  split; [exact Hcode|]. split; [exact Hout | exact Htrace].
Defined.


Lemma C9_no_size_guard_witness :
  transcribe_audio (demo_env (1501 # 1)) sermon demo_world
  = (inr "Hello world.",
     recorded demo_world [TranscriptionsCreate "whisper-1" sermon]).
Proof.
  destruct (C9_no_size_guard (demo_env (1501 # 1)) demo_world sermon "bytes"
              eq_refl) as (_ & Hrun & _).
  exact Hrun.
Defined.

(** * Further properties *)

(** ** Names of the files a run leaves behind *)

Section Names.
Import PyStr PathOps.

Lemma count_app (c : ascii) (a b : string) :
  count c (a +:+ b) = (count c a + count c b)%nat.
Proof.
  induction a as [|x a IH]; [done|]. rewrite app_cons. simpl.
  rewrite IH. lia.
Qed.

Lemma rfind_none_count (c : ascii) (s : string) :
  rfind c s = None → count c s = 0%nat.
Proof.
  induction s as [|a s IH]; simpl; [done|].
  destruct (rfind c s); [done|].
  destruct (Ascii.eqb a c); [done|]. intros _. by rewrite IH.
Qed.

Lemma rfind_count_drop (c : ascii) (s : string) (i : nat) :
  rfind c s = Some i → count c (drop i s) = 1%nat.
Proof.
  revert i; induction s as [|a s IH]; simpl; intros i; [done|].
  destruct (rfind c s) as [j|] eqn:Hj.
  - intros [= <-]. simpl. by apply IH.
  - destruct (Ascii.eqb a c) eqn:Ha; [|done]. intros [= <-]. simpl.
    by rewrite Ha, (rfind_none_count _ _ Hj).
Qed.

Lemma rfind_app (c : ascii) (a s : string) :
  rfind c (a +:+ s)
  = match rfind c s with
    | Some i => Some (String.length a + i)%nat
    | None => rfind c a
    end.
Proof.
  induction a as [|x a IH].
  { change ("" +:+ s) with s. by destruct (rfind c s). }
  rewrite app_cons. simpl. rewrite IH.
  destruct (rfind c s); reflexivity.
Qed.

Lemma take_app (a b : string) : take (String.length a) (a +:+ b) = a.
Proof.
  induction a as [|x a IH]; [by destruct b|].
  rewrite app_cons. simpl. by rewrite IH.
Qed.

Lemma take_drop (n : nat) (s : string) : take n s +:+ drop n s = s.
Proof.
  revert s; induction n as [|n IH]; intros [|a s]; simpl; auto.
  rewrite app_cons. f_equal. apply IH.
Qed.

Lemma app_empty_r (a : string) : a +:+ "" = a.
Proof. induction a as [|x a IH]; [done|]. by rewrite app_cons, IH. Qed.

Lemma name_stem_suffix (p : Path) : name p = stem p +:+ suffix p.
Proof.
  unfold stem, suffix.
  destruct (rfind "." (name p)) as [i|]; [|by rewrite app_empty_r].
  destruct (_ && _); [by rewrite take_drop | by rewrite app_empty_r].
Qed.

Lemma suffix_one_dot (p : Path) : (count "." (suffix p) <= 1)%nat.
Proof.
  unfold suffix.
  destruct (rfind "." (name p)) as [i|] eqn:Hi; [|simpl; lia].
  destruct (_ && _); [|simpl; lia].
  by rewrite (rfind_count_drop _ _ _ Hi).
Qed.

(** A path named by the stem of [p] and two dots or more is not [p]. *)
Lemma name_fresh (p q : Path) (sfx : string) :
  name q = stem p +:+ sfx → (2 <= count "." sfx)%nat → q ≠ p.
Proof.
  intros Hq Hdots ->.
  rewrite (name_stem_suffix p) in Hq at 1.
  apply (inj (String.app (stem p))) in Hq.
  pose proof (suffix_one_dot p) as H1. rewrite Hq in H1. lia.
Qed.

Lemma with_suffix_fresh (p q : Path) (sfx : string) :
  with_suffix p sfx = inr q → (2 <= count "." sfx)%nat → q ≠ p.
Proof. intros Hq%name_with_suffix. by apply name_fresh. Qed.

(** The stem of a name that ends in a dot and a dotless extension. *)
Lemma stem_of_extension (p : Path) (x ext : string) :
  name p = x +:+ String "." ext →
  x ≠ "" → ext ≠ "" → count "." ext = 0%nat →
  stem p = x.
Proof.
  intros Hn Hx Hext Hdots. unfold stem. rewrite Hn.
  assert (rfind "." ext = None) as Hnone.
  { destruct (rfind "." ext) as [i|] eqn:Hi; [|done].
    pose proof (rfind_count_drop _ _ _ Hi) as H1.
    assert (count "." (take i ext +:+ drop i ext) = 0%nat) as H0
      by (by rewrite take_drop).
    rewrite count_app in H0. lia. }
  rewrite rfind_app. simpl. rewrite Hnone. simpl.
  rewrite Nat.add_0_r, length_app. simpl.
  assert (0 < String.length x)%nat by (destruct x; [done|simpl; lia]).
  assert (0 < String.length ext)%nat by (destruct ext; [done|simpl; lia]).
  replace ((0 <? String.length x)%nat) with true
    by (symmetry; apply Nat.ltb_lt; lia).
  replace (Z.of_nat (String.length x)
           <? Z.of_nat (String.length x + S (String.length ext)) - 1)%Z
    with true by (symmetry; apply Z.ltb_lt; lia).
  simpl. apply take_app.
Qed.

Lemma app_nonempty (a b : string) : b ≠ "" → a +:+ b ≠ "".
Proof. intros Hb. destruct a; [done|]. by rewrite app_cons. Qed.

(** The stem of the sped-up file. *)
Lemma stem_sped_up (p q : Path) (f : string) :
  with_suffix p (".x" +:+ f +:+ ".mp3") = inr q →
  stem q = stem p +:+ ".x" +:+ f.
Proof.
  intros Hq%name_with_suffix.
  apply (stem_of_extension q (stem p +:+ ".x" +:+ f) "mp3");
    [|by apply app_nonempty|done|done].
  rewrite Hq. rewrite !app_assoc_str. done.
Qed.
End Names.

(** ** What each stage writes *)

Section Writes.
Variable E : Env.

Lemma lookup_not_exists (w : World) (p : Path) :
  bool_decide (is_Some (fs w !! p)) = false → fs w !! p = None.
Proof. intros H%bool_decide_eq_false. by apply eq_None_not_Some. Qed.

Lemma process_audio_file_writes (w : World) (p : Path) :
  let r := process_audio_file E p w in
  fs r.2 = fs w
  ∨ ∃ q bytes, r.1 = inr q ∧ fs w !! q = None
               ∧ fs r.2 = <[q := bytes]> (fs w).
Proof.
  unfold process_audio_file, get_audio_length, subprocess_check_output,
    change_audio_speed, subprocess_run.
  unfold_m. repeat case_match; simplify_eq/=; try (by left).
  right. eexists _, _. split_and!; [done| |done].
  by apply lookup_not_exists.
Qed.

Lemma get_transcript_writes (w : World) (p : Path) :
  let r := get_transcript E p w in
  fs r.2 = fs w
  ∨ ∃ tf t, r.1 = inr t
            ∧ PathOps.with_suffix p ".transcript.txt" = inr tf
            ∧ fs w !! tf = None
            ∧ fs r.2 = <[tf := t]> (fs w).
Proof.
  unfold get_transcript, transcribe_audio.
  unfold_m. repeat case_match; simplify_eq/=; try (by left).
  right. eexists _, _. split_and!; [done|done| |done].
  by apply lookup_not_exists.
Qed.

Lemma generate_and_save_summary_writes (w : World) (p : Path) (t : string)
    (i : option string) :
  let r := generate_and_save_summary E p t i w in
  fs r.2 = fs w
  ∨ ∃ sf s, r.1 = inr tt
            ∧ PathOps.with_suffix p ".summary.txt" = inr sf
            ∧ fs r.2 = <[sf := s]> (fs w).
Proof.
  unfold generate_and_save_summary, summarize_text.
  unfold_m. repeat case_match; simplify_eq/=; try (by left).
  right. eexists _, _. by split_and!.
Qed.

Lemma process_audio_file_preserves (w : World) (p x : Path) (c : string) :
  fs w !! x = Some c → fs (process_audio_file E p w).2 !! x = Some c.
Proof.
  intros Hx.
  destruct (process_audio_file_writes w p) as [->|(q & b & _ & Hq & ->)];
    [done|].
  rewrite lookup_insert_ne; [done|]. by intros ->; rewrite Hx in Hq.
Qed.

Lemma get_transcript_preserves (w : World) (p x : Path) (c : string) :
  fs w !! x = Some c → fs (get_transcript E p w).2 !! x = Some c.
Proof.
  intros Hx.
  destruct (get_transcript_writes w p) as [->|(q & b & _ & _ & Hq & ->)];
    [done|].
  rewrite lookup_insert_ne; [done|]. by intros ->; rewrite Hx in Hq.
Qed.

Lemma main_error (args : Args) (w w' : World) (e : exn) :
  main_body E args w = (inl e, w') →
  main E args w = (1%Z, printed w' [error_line e]).
Proof. unfold main. intros ->. by destruct e. Qed.
End Writes.

(** ** Outcomes of the stages, continued *)

Section Outcomes.
Variable E : Env.

Lemma process_audio_file_probe_fails (w : World) (p : Path) (c : string)
    (e : exn) :
  fs w !! p = Some c →
  (check_output E w (ffprobe_command p) = inl e
   ∨ ∃ out, check_output E w (ffprobe_command p) = inr out
            ∧ float_of_output E out = inl e) →
  process_audio_file E p w
  = (inl e, recorded w [Subprocess (ffprobe_command p)]).
Proof.
  intros Hp Hfail.
  unfold process_audio_file, get_audio_length, subprocess_check_output.
  unfold_m. rewrite (exists_true _ _ _ Hp). cbn [negb fs trace stdout].
  destruct Hfail as [->|(out & -> & ->)]; done.
Qed.

Lemma process_audio_file_calls_bound (w : World) (p : Path) :
  ∃ evs, trace (process_audio_file E p w).2 = trace w ++ evs
         ∧ Forall (λ ev, is_subprocess ev = true) evs
         ∧ (length evs <= 2)%nat.
Proof.
  unfold process_audio_file, get_audio_length, subprocess_check_output,
    change_audio_speed, subprocess_run.
  unfold_m. repeat case_match; simplify_eq/=;
    rewrite <- ?(assoc_L (++));
    first [ by (exists []; rewrite (right_id_L [] (++)); split_and!;
                [done | constructor | simpl; lia])
          | eexists; split_and!;
            [reflexivity | by repeat constructor | simpl; lia] ].
Qed.

Lemma get_transcript_calls_bound (w : World) (p : Path) :
  ∃ evs, trace (get_transcript E p w).2 = trace w ++ evs
         ∧ Forall (λ ev, is_transcription_call ev = true) evs
         ∧ (length evs <= 1)%nat.
Proof.
  unfold get_transcript, transcribe_audio.
  unfold_m. repeat case_match; simplify_eq/=;
    rewrite <- ?(assoc_L (++));
    first [ by (exists []; rewrite (right_id_L [] (++)); split_and!;
                [done | constructor | simpl; lia])
          | eexists; split_and!;
            [reflexivity | by repeat constructor | simpl; lia] ].
Qed.

Lemma get_transcript_miss_trace (w : World) (p tf : Path) (bytes : string) :
  PathOps.with_suffix p ".transcript.txt" = inr tf →
  fs w !! tf = None → fs w !! p = Some bytes →
  trace (get_transcript E p w).2
  = trace w ++ [TranscriptionsCreate "whisper-1" p].
Proof.
  intros Htf Hc Hp.
  destruct (transcriptions_create E (transcribing w p) "whisper-1" p bytes)
    as [e|t] eqn:Hapi.
  - by rewrite (get_transcript_miss_fails _ _ _ _ _ _ Htf Hc Hp Hapi).
  - by rewrite (get_transcript_miss _ _ _ _ _ _ Htf Hc Hp Hapi).
Qed.

Lemma get_transcript_nothing (w : World) (p tf : Path) :
  PathOps.with_suffix p ".transcript.txt" = inr tf →
  fs w !! tf = None → fs w !! p = None →
  get_transcript E p w
  = (inl (FileNotFoundError
            ("[Errno 2] No such file or directory: '"
             +:+ PathOps.str p +:+ "'")),
     transcribing w p).
Proof.
  intros Htf Hc Hp. unfold get_transcript, transcribe_audio.
  rewrite Htf. unfold_m. rewrite (exists_false _ _ Hc).
  cbn [fs trace stdout]. by rewrite Hp.
Qed.

Lemma get_transcript_stored (w w' : World) (p : Path) (t : string) :
  get_transcript E p w = (inr t, w') →
  ∃ tf, PathOps.with_suffix p ".transcript.txt" = inr tf
        ∧ fs w' !! tf = Some t.
Proof.
  intros H.
  destruct (PathOps.with_suffix p ".transcript.txt") as [e|tf] eqn:Htf.
  { unfold get_transcript in H. rewrite Htf in H. by unfold_m_in H. }
  exists tf. split; [done|].
  destruct (fs w !! tf) as [c|] eqn:Hc.
  - rewrite (get_transcript_hit _ _ _ _ _ Htf Hc) in H.
    by injection H as <- <-.
  - destruct (fs w !! p) as [bytes|] eqn:Hp.
    + destruct (transcriptions_create E (transcribing w p) "whisper-1" p
                  bytes) as [e|t'] eqn:Hapi.
      * by rewrite (get_transcript_miss_fails _ _ _ _ _ _ Htf Hc Hp Hapi)
          in H.
      * rewrite (get_transcript_miss _ _ _ _ _ _ Htf Hc Hp Hapi) in H.
        injection H as <- <-. cbn [printed stored fs].
        apply lookup_insert_eq.
    + by rewrite (get_transcript_nothing _ _ _ Htf Hc Hp) in H.
Qed.

(** The world in which [generate_and_save_summary] calls the API. *)
Lemma generate_and_save_summary_saved (w : World) (p sf : Path)
    (t s : string) (i : option string) :
  PathOps.with_suffix p ".summary.txt" = inr sf →
  responses_create E (printed w ["Summarizing sermon transcript..."])
    "gpt-4.1" "user" (summary_content (choose_instruction i) t) = inr s →
  generate_and_save_summary E p t i w
  = (inr tt,
     printed
       (stored
          (recorded (printed w ["Summarizing sermon transcript..."])
             [ResponsesCreate "gpt-4.1" "user"
                (summary_content (choose_instruction i) t)])
          sf s)
       ["Summary saved to: " +:+ PathOps.str sf; "Summary:" +:+ nl +:+ s]).
Proof.
  intros Hsf Hapi. unfold generate_and_save_summary, summarize_text.
  unfold_m. cbn [fs trace stdout]. unfold printed in Hapi.
  rewrite Hapi, Hsf. unfold printed, stored, recorded. cbn [fs trace stdout].
  by rewrite <- (assoc_L (++)).
Qed.

Lemma generate_and_save_summary_fails (w : World) (p : Path)
    (t : string) (i : option string) (e : exn) :
  responses_create E (printed w ["Summarizing sermon transcript..."])
    "gpt-4.1" "user" (summary_content (choose_instruction i) t) = inl e →
  generate_and_save_summary E p t i w
  = (inl e,
     recorded (printed w ["Summarizing sermon transcript..."])
       [ResponsesCreate "gpt-4.1" "user"
          (summary_content (choose_instruction i) t)]).
Proof.
  intros Hapi. unfold generate_and_save_summary, summarize_text.
  unfold_m. cbn [fs trace stdout]. unfold printed in Hapi.
  by rewrite Hapi.
Qed.

Lemma generate_and_save_summary_success (w w' : World) (p : Path)
    (t : string) (i : option string) :
  generate_and_save_summary E p t i w = (inr tt, w') →
  ∃ sf s, PathOps.with_suffix p ".summary.txt" = inr sf
          ∧ responses_create E
              (printed w ["Summarizing sermon transcript..."])
              "gpt-4.1" "user" (summary_content (choose_instruction i) t)
            = inr s
          ∧ fs w' = <[sf := s]> (fs w)
          ∧ List.last (stdout w') "" = "Summary:" +:+ nl +:+ s.
Proof.
  intros H.
  destruct (responses_create E
              (printed w ["Summarizing sermon transcript..."])
              "gpt-4.1" "user" (summary_content (choose_instruction i) t))
    as [e|s] eqn:Hapi;
    [by rewrite (generate_and_save_summary_fails _ _ _ _ _ Hapi) in H|].
  destruct (PathOps.with_suffix p ".summary.txt") as [e|sf] eqn:Hsf.
  { unfold generate_and_save_summary, summarize_text in H.
    unfold_m_in H. cbn [fs trace stdout] in H. unfold printed in Hapi.
    by rewrite Hapi, Hsf in H. }
  rewrite (generate_and_save_summary_saved _ _ _ _ _ _ Hsf Hapi) in H.
  injection H as <-. exists sf, s. split_and!; [done..|].
  cbn [printed stdout].
  match goal with
  | |- List.last (?l ++ [?a; ?b]) _ = _ =>
      change (l ++ [a; b]) with (l ++ ([a] ++ [b]));
      by rewrite (assoc_L (++)), last_last
  end.
Qed.
End Outcomes.

(** * Further properties of the pipeline *)

Section Further.
Variable E : Env.

(** X1.  When the duration probe fails, because the tool fails or because
    its output is not a number, [main] returns 1 after that one subprocess
    call: no transcoder, no API call, no file written, and the handler line
    for the exception printed. *)
Theorem X1_probe_failure (args : Args) (w : World) (c : string) (e : exn) :
  let a := PathOps.of_string (audio_file args) in
  fs w !! a = Some c →
  (check_output E w (ffprobe_command a) = inl e
   ∨ ∃ out, check_output E w (ffprobe_command a) = inr out
            ∧ float_of_output E out = inl e) →
  main E args w
  = (1%Z, printed (recorded w [Subprocess (ffprobe_command a)])
            [error_line e]).
Proof.
  intros a Hp Hfail. apply main_error. rewrite main_body_stages. fold a.
  by rewrite (process_audio_file_probe_fails E w a c e Hp Hfail).
Qed.


(** X3.  For a long audio whose sped-up file already exists,
    [process_audio_file] returns that file without starting the
    transcoder, whatever the file contains, and writes nothing. *)
Theorem X3_sped_up_file_reused (w : World) (p q : Path) (c c' : string)
    (d : Q) :
  fs w !! p = Some c → probes_to E w p d → (1500 < d)%Q →
  PathOps.with_suffix p (".x" +:+ float_str (new_speed d) +:+ ".mp3")
  = inr q →
  fs w !! q = Some c' →
  let r := process_audio_file E p w in
  r.1 = inr q
  ∧ trace r.2 = trace w ++ [Subprocess (ffprobe_command p)]
  ∧ fs r.2 = fs w.
Proof.
  intros Hp Hprobe Hd Hq Hex r. subst r.
  by rewrite (process_audio_file_reuse E w p q c c' d Hp Hprobe Hd Hq Hex).
Qed.


(** X5.  A transcription that fails leaves no transcript file behind, so
    the next call of [get_transcript] asks the transcriber again. *)
Theorem X5_failed_transcription_not_cached (w : World) (p tf : Path)
    (bytes : string) (e : exn) :
  PathOps.with_suffix p ".transcript.txt" = inr tf →
  fs w !! tf = None → fs w !! p = Some bytes →
  transcriptions_create E (transcribing w p) "whisper-1" p bytes = inl e →
  let r := get_transcript E p w in
  r.1 = inl e
  ∧ fs r.2 = fs w
  ∧ trace r.2 = trace w ++ [TranscriptionsCreate "whisper-1" p]
  ∧ trace (get_transcript E p r.2).2
    = trace r.2 ++ [TranscriptionsCreate "whisper-1" p].
Proof.
  intros Htf Hc Hp Hapi r. subst r.
  rewrite (get_transcript_miss_fails E w p tf bytes e Htf Hc Hp Hapi).
  cbn [fst snd]. split_and!; [done..|].
  by apply (get_transcript_miss_trace E _ p tf bytes).
Qed.

(** X6.  With neither a transcript nor the audio file in place,
    [get_transcript] raises [FileNotFoundError] naming the audio path; the
    transcription API is not called and nothing is written. *)
Theorem X6_nothing_to_transcribe (w : World) (p tf : Path) :
  PathOps.with_suffix p ".transcript.txt" = inr tf →
  fs w !! tf = None → fs w !! p = None →
  let r := get_transcript E p w in
  r.1 = inl (FileNotFoundError
               ("[Errno 2] No such file or directory: '"
                +:+ PathOps.str p +:+ "'"))
  ∧ trace r.2 = trace w
  ∧ fs r.2 = fs w.
Proof.
  intros Htf Hc Hp r. subst r.
  by rewrite (get_transcript_nothing E w p tf Htf Hc Hp).
Qed.

(** X7.  The summary goes to the stem of the audio file plus
    [.summary.txt].  When the API answers, its text replaces whatever that
    file held and is the last thing printed; when the API fails, no file is
    touched, so an earlier summary stays. *)
Theorem X7_summary_file (w : World) (p sf : Path) (t : string)
    (i : option string) :
  PathOps.with_suffix p ".summary.txt" = inr sf →
  let answer :=
    responses_create E (printed w ["Summarizing sermon transcript..."])
      "gpt-4.1" "user" (summary_content (choose_instruction i) t) in
  let r := generate_and_save_summary E p t i w in
  PathOps.name sf = PathOps.stem p +:+ ".summary.txt"
  ∧ (∀ s, answer = inr s →
       r.1 = inr tt
       ∧ fs r.2 = <[sf := s]> (fs w)
       ∧ List.last (stdout r.2) "" = "Summary:" +:+ nl +:+ s)
  ∧ (∀ e, answer = inl e → r.1 = inl e ∧ fs r.2 = fs w).
Proof.
  intros Hsf answer r. subst answer r.
  split; [by apply name_with_suffix|]. split.
  - intros s Hapi.
    rewrite (generate_and_save_summary_saved E w p sf t s i Hsf Hapi).
    cbn [fst snd printed stored recorded fs trace stdout].
    split_and!; [done..|].
    match goal with
    | |- List.last (?l ++ [?a; ?b]) _ = _ =>
        change (l ++ [a; b]) with (l ++ ([a] ++ [b]));
        by rewrite (assoc_L (++)), last_last
    end.
  - intros e Hapi.
    by rewrite (generate_and_save_summary_fails E w p t i e Hapi).
Qed.

(** X8.  A run of [main] removes no file, and it changes no existing file
    other than one whose name ends in [.summary.txt]. *)
Theorem X8_main_preserves_files (args : Args) (w : World) (x : Path)
    (c : string) :
  fs w !! x = Some c →
  let w' := (main E args w).2 in
  is_Some (fs w' !! x)
  ∧ (PyStr.endswith ".summary.txt" (PathOps.name x) = false →
     fs w' !! x = Some c).
Proof.
  intros Hx w'. subst w'. rewrite main_fs, main_body_stages.
  pose proof (process_audio_file_preserves E w
                (PathOps.of_string (audio_file args)) x c Hx) as H1.
  destruct (process_audio_file E _ w) as [[e|q] w1]; cbn [snd] in *;
    [by eauto|].
  pose proof (get_transcript_preserves E w1 q x c H1) as H2.
  destruct (get_transcript E q w1) as [[e|t] w2]; cbn [snd] in *;
    [by eauto|].
  destruct (generate_and_save_summary_writes E w2 q t (instructions args))
    as [->|(sf & s & _ & Hsf & ->)]; [by eauto|].
  split; [apply lookup_insert_is_Some'; by eauto|].
  intros Hend. rewrite lookup_insert_ne; [done|]. intros ->.
  apply name_with_suffix in Hsf. by rewrite Hsf, endswith_app in Hend.
Qed.

(** X9.  A run of [main] never changes the source audio file: none of the
    files it writes (sped-up audio, transcript, summary) can be the
    source. *)
Theorem X9_source_audio_untouched (args : Args) (w : World) (c : string) :
  let a := PathOps.of_string (audio_file args) in
  fs w !! a = Some c →
  fs (main E args w).2 !! a = Some c.
Proof.
  intros a Ha. rewrite main_fs, main_body_stages. fold a.
  pose proof (process_audio_file_preserves E w a a c Ha) as H1.
  destruct (process_audio_file E a w) as [[e|q] w1] eqn:Hproc;
    cbn [snd] in *; [done|].
  pose proof (get_transcript_preserves E w1 q a c H1) as H2.
  destruct (get_transcript E q w1) as [[e|t] w2]; cbn [snd] in *; [done|].
  destruct (generate_and_save_summary_writes E w2 q t (instructions args))
    as [->|(sf & s & _ & Hsf & ->)]; [done|].
  rewrite lookup_insert_ne; [done|]. intros ->.
  destruct (process_audio_file_probes E _ _ _ _ Hproc)
    as (c0 & d & Hp & Hprobe).
  destruct (process_audio_file_success E _ _ _ _ _ _ Hp Hprobe Hproc)
    as [[_ ->]|(_ & Hq & _)].
  - by apply (with_suffix_fresh a a ".summary.txt").
  - apply name_with_suffix in Hsf. rewrite (stem_sped_up _ _ _ Hq) in Hsf.
    apply (name_fresh a a
             (".x" +:+ float_str (new_speed d) +:+ ".summary.txt")).
    + by rewrite Hsf, !app_assoc_str.
    + rewrite !count_app. simpl. lia.
    + done.
Qed.

(** X10.  The calls of a run come in a fixed order and number: at most two
    subprocesses (probe, transcoder), then at most one transcription
    request, then at most one summary request. *)
Theorem X10_call_order (args : Args) (w : World) :
  ∃ subs trs sums,
    trace (main E args w).2 = trace w ++ subs ++ trs ++ sums
    ∧ Forall (λ ev, is_subprocess ev = true) subs
    ∧ (length subs <= 2)%nat
    ∧ Forall (λ ev, is_transcription_call ev = true) trs
    ∧ (length trs <= 1)%nat
    ∧ Forall (λ ev, is_summary_call ev = true) sums
    ∧ (length sums <= 1)%nat.
Proof.
  rewrite main_trace, main_body_stages.
  destruct (process_audio_file_calls_bound E w
              (PathOps.of_string (audio_file args)))
    as (subs & Hsubs & Hsub & Hlen).
  destruct (process_audio_file E _ w) as [[e|q] w1]; cbn [snd] in *.
  { exists subs, [], []. rewrite !(right_id_L [] (++)).
    split_and!; first [done | simpl; lia]. }
  destruct (get_transcript_calls_bound E w1 q) as (trs & Htrs & Htr & Hlen').
  destruct (get_transcript E q w1) as [[e|t] w2]; cbn [snd] in *.
  { exists subs, trs, []. rewrite !(right_id_L [] (++)), Htrs, Hsubs.
    rewrite (assoc_L (++)). split_and!; first [done | simpl; lia]. }
  rewrite generate_and_save_summary_trace, Htrs, Hsubs.
  eexists subs, trs, [_]. rewrite !(assoc_L (++)).
  split_and!; first [done | by repeat constructor | simpl; lia].
Qed.

(** X11.  When [main] returns 0, the processed audio, its transcript and
    its summary are all in place; the summary file holds the text printed
    last, and the last call was the summary request for the stored
    transcript. *)
Theorem X11_success_postcondition (args : Args) (w : World) :
  let a := PathOps.of_string (audio_file args) in
  let r := main E args w in
  r.1 = 0%Z →
  ∃ q tf sf t s,
    (process_audio_file E a w).1 = inr q
    ∧ is_Some (fs r.2 !! q)
    ∧ PathOps.with_suffix q ".transcript.txt" = inr tf
    ∧ fs r.2 !! tf = Some t
    ∧ PathOps.with_suffix q ".summary.txt" = inr sf
    ∧ fs r.2 !! sf = Some s
    ∧ List.last (stdout r.2) "" = "Summary:" +:+ nl +:+ s
    ∧ List.last (trace r.2) (Subprocess [])
      = ResponsesCreate "gpt-4.1" "user"
          (summary_content (choose_instruction (instructions args)) t).
Proof.
  intros a r Hcode. subst r. rewrite main_code in Hcode.
  assert (main E args w = (0%Z, (main_body E args w).2)) as Hmain.
  { unfold main. by destruct (main_body E args w) as [[[?|?]|[]] ?]. }
  rewrite Hmain. cbn [fst snd]. clear Hmain.
  pose proof (generate_and_save_summary_trace E) as Htrace.
  revert Hcode. rewrite main_body_stages. fold a.
  destruct (process_audio_file E a w) as [[e|q] w1] eqn:Hproc; [done|].
  destruct (get_transcript E q w1) as [[e|t] w2] eqn:Hget; [done|].
  specialize (Htrace w2 q t (instructions args)).
  destruct (generate_and_save_summary E q t (instructions args) w2)
    as [[e|[]] w3] eqn:Hgen; [done|]. intros _. cbn [fst snd] in *.
  destruct (process_audio_file_probes E _ _ _ _ Hproc)
    as (c0 & d & Hp & Hprobe).
  assert (is_Some (fs w1 !! q)) as [cq Hq1].
  { destruct (process_audio_file_success E _ _ _ _ _ _ Hp Hprobe Hproc)
      as [[_ ->]|(_ & _ & Hq)]; [|done].
    pose proof (process_audio_file_preserves E w a a c0 Hp) as H.
    rewrite Hproc in H. by eexists. }
  destruct (get_transcript_stored E _ _ _ _ Hget) as (tf & Htf & Ht).
  destruct (generate_and_save_summary_success E _ _ _ _ _ Hgen)
    as (sf & s & Hsf & _ & Hfs & Hlast).
  pose proof (get_transcript_preserves E w1 q q cq Hq1) as Hq2.
  rewrite Hget in Hq2. cbn [snd] in Hq2.
  exists q, tf, sf, t, s. rewrite Hfs.
  split_and!; try done.
  - apply lookup_insert_is_Some'. by eauto.
  - rewrite lookup_insert_ne; [done|]. intros ->.
    apply name_with_suffix in Htf, Hsf. rewrite Hsf in Htf.
    by apply (inj (String.app (PathOps.stem q))) in Htf.
  - apply lookup_insert_eq.
  - by rewrite Htrace, last_last.
Qed.

(** X12.  The files of one run never collide.  For any audio file the
    transcript and summary paths differ from it and from each other.  For a
    sped-up file [<stem>.x<f>.mp3] the transcript and summary are
    [<stem>.x<f>.transcript.txt] and [<stem>.x<f>.summary.txt], and the
    source, the sped-up file and these two are four different paths. *)
Theorem X12_artifact_paths (p : Path) (f : string) :
  (∀ tf sf,
     PathOps.with_suffix p ".transcript.txt" = inr tf →
     PathOps.with_suffix p ".summary.txt" = inr sf →
     NoDup [p; tf; sf])
  ∧ (∀ q, PathOps.with_suffix p (".x" +:+ f +:+ ".mp3") = inr q →
       ∃ tf sf,
         PathOps.with_suffix q ".transcript.txt" = inr tf
         ∧ PathOps.with_suffix q ".summary.txt" = inr sf
         ∧ PathOps.name tf
           = PathOps.stem p +:+ ".x" +:+ f +:+ ".transcript.txt"
         ∧ PathOps.name sf
           = PathOps.stem p +:+ ".x" +:+ f +:+ ".summary.txt"
         ∧ NoDup [p; q; tf; sf]).
Proof.
  assert (∀ r tf sf,
            PathOps.with_suffix r ".transcript.txt" = inr tf →
            PathOps.with_suffix r ".summary.txt" = inr sf → tf ≠ sf)
    as Hdiff.
  { intros r tf sf Htf Hsf ->. apply name_with_suffix in Htf, Hsf.
    rewrite Hsf in Htf.
    by apply (inj (String.app (PathOps.stem r))) in Htf. }
  split.
  - intros tf sf Htf Hsf.
    assert (tf ≠ p) as H1
      by (apply (with_suffix_fresh _ _ _ Htf); simpl; lia).
    assert (sf ≠ p) as H2
      by (apply (with_suffix_fresh _ _ _ Hsf); simpl; lia).
    pose proof (Hdiff p tf sf Htf Hsf) as H3.
    repeat (apply NoDup_cons; split);
      [ rewrite !elem_of_cons, elem_of_nil
      | rewrite !elem_of_cons, elem_of_nil
      | apply not_elem_of_nil | apply NoDup_nil_2 ].
    + intros [H|[H|[]]]; symmetry in H; done.
    + by intros [?|[]].
  - intros q Hq.
    pose proof (name_with_suffix _ _ _ Hq) as Hnq.
    assert (PathOps.name q ≠ "") as Hne
      by (rewrite Hnq; by apply app_nonempty).
    pose proof (stem_sped_up _ _ _ Hq) as Hstem.
    pose proof (with_suffix_stem q ".transcript.txt"
                  eq_refl eq_refl ltac:(discriminate) Hne) as Htf.
    pose proof (with_suffix_stem q ".summary.txt"
                  eq_refl eq_refl ltac:(discriminate) Hne) as Hsf.
    match type of Htf with _ = inr ?x => generalize dependent x end.
    intros tf Htf.
    match type of Hsf with _ = inr ?x => generalize dependent x end.
    intros sf Hsf.
    exists tf, sf. split; [exact Htf|]. split; [exact Hsf|].
    pose proof (name_with_suffix _ _ _ Htf) as Hntf.
    pose proof (name_with_suffix _ _ _ Hsf) as Hnsf.
    rewrite Hstem, app_assoc_str, app_assoc_str in Hntf, Hnsf.
    split; [exact Hntf|]. split; [exact Hnsf|].
    assert (q ≠ p) as Hqp.
    { apply (with_suffix_fresh _ _ _ Hq). rewrite !count_app. simpl. lia. }
    assert (∀ r sfx, PathOps.name r
                     = PathOps.stem p +:+ ".x" +:+ f +:+ String "." sfx →
                     r ≠ p) as Hfresh.
    { intros r sfx Hr. apply (name_fresh p r _ Hr).
      rewrite !count_app. simpl. lia. }
    pose proof (Hfresh _ _ Hntf) as Htp. pose proof (Hfresh _ _ Hnsf) as Hsp.
    assert (∀ r sfx, PathOps.with_suffix q sfx = inr r →
                     (2 <= PyStr.count "." sfx)%nat → r ≠ q) as Hq'
      by (intros r sfx; apply with_suffix_fresh).
    pose proof (Hq' _ _ Htf ltac:(simpl; lia)) as Htq.
    pose proof (Hq' _ _ Hsf ltac:(simpl; lia)) as Hsq.
    pose proof (Hdiff q _ _ Htf Hsf) as Hts.
    repeat (apply NoDup_cons; split);
      [ rewrite !elem_of_cons, elem_of_nil
      | rewrite !elem_of_cons, elem_of_nil
      | rewrite !elem_of_cons, elem_of_nil
      | apply not_elem_of_nil | apply NoDup_nil_2 ].
    + intros [H|[H|[H|[]]]]; symmetry in H; done.
    + intros [H|[H|[]]]; symmetry in H; done.
    + by intros [?|[]].
Qed.

(** X13.  The transcript cache is keyed by the processed file.  For a long
    audio the transcript looked for is the one of the sped-up file: when
    that one is missing the transcriber is called on the sped-up file, and
    a transcript stored for the original is a different path and is not
    consulted. *)
Theorem X13_long_audio_transcript_key (args : Args) (w w1 : World)
    (q tf : Path) (c : string) (d : Q) :
  let a := PathOps.of_string (audio_file args) in
  fs w !! a = Some c → probes_to E w a d → (1500 < d)%Q →
  process_audio_file E a w = (inr q, w1) →
  PathOps.with_suffix q ".transcript.txt" = inr tf →
  fs w !! tf = None →
  (∀ tfa, PathOps.with_suffix a ".transcript.txt" = inr tfa → tfa ≠ tf)
  ∧ TranscriptionsCreate "whisper-1" q ∈ trace (main E args w).2.
Proof.
  intros a Ha Hprobe Hd Hproc Htf Hnone.
  destruct (process_audio_file_success E _ _ _ _ _ _ Ha Hprobe Hproc)
    as [[Hle _]|(_ & Hq & [cq Hq1])]; [lra|].
  split.
  - intros tfa Htfa ->. apply name_with_suffix in Htfa, Htf.
    rewrite (stem_sped_up _ _ _ Hq), Htfa, !app_assoc_str in Htf.
    apply (inj (String.app (PathOps.stem a))) in Htf. discriminate.
  - assert (fs w1 !! tf = None) as Hnone1.
    { destruct (process_audio_file_writes E w a)
        as [Hsame|(q' & b & Hret & _ & Hins)];
        rewrite Hproc in *; cbn [fst snd] in *.
      - by rewrite Hsame.
      - injection Hret as <-. rewrite Hins, lookup_insert_ne; [done|].
        intros ->. by apply (with_suffix_fresh _ _ _ Htf); [simpl; lia|]. }
    rewrite main_trace, main_body_stages. fold a. rewrite Hproc.
    pose proof (get_transcript_miss_trace E w1 q tf cq Htf Hnone1 Hq1)
      as Htrace.
    destruct (get_transcript E q w1) as [[e|t] w2]; cbn [snd] in *.
    + rewrite Htrace. apply elem_of_app. right. apply list_elem_of_singleton.
      done.
    + rewrite generate_and_save_summary_trace, Htrace.
      apply elem_of_app. left. apply elem_of_app. right.
      by apply list_elem_of_singleton.
Qed.
End Further.

(** X14.  The speed-up is never more than a tenth above what is needed:
    for a duration above 1500 seconds the adjusted duration stays above
    15000/11 seconds (about 1363.6).  The upper limit of 1500 is attained:
    at [150 * k] seconds, [k >= 11], the speed is exactly [k / 10] and the
    adjusted duration exactly 1500. *)
Theorem X14_adjusted_duration_range (d : Q) :
  (1500 < d)%Q →
  ((11 # 10) <= new_speed d)%Q
  ∧ ((15000 # 11) < d / new_speed d)%Q
  ∧ ∀ k : Z, (11 <= k)%Z →
      (new_speed (inject_Z (150 * k)) == inject_Z k / 10)%Q
      ∧ (inject_Z (150 * k) / new_speed (inject_Z (150 * k)) == 1500)%Q.
Proof.
  intros Hd.
  assert ((11 # 10) <= new_speed d)%Q as Hm.
  { pose proof (new_speed_gt_1 d Hd) as H1.
    rewrite new_speed_tenths in *. unfold Qlt, Qle in *.
    cbn [Qnum Qden] in *. lia. }
  split; [exact Hm|]. split.
  - pose proof (new_speed_tight d) as Ht.
    apply Qlt_shift_div_l; [lra|].
    assert (d / 1500 * 1500 == d)%Q as Hdd by field.
    assert (1 / 10 == (1 # 10))%Q as H10 by reflexivity.
    rewrite H10 in Ht.
    apply Qlt_le_trans with (d / 1500 * 1500)%Q;
      [|rewrite Hdd; apply Qle_refl].
    clear Hdd H10 Hd.
    generalize dependent (d / 1500)%Q. intros x.
    generalize dependent (new_speed d). intros m Hm Ht. lra.
  - intros k Hk.
    assert (new_speed (inject_Z (150 * k)) == inject_Z k / 10)%Q as Hs.
    { unfold new_speed, WHISPER1_MAX_AUDIO_DURATION_SEC.
      assert (inject_Z (150 * k) / inject_Z 1500 * inject_Z 10
              == inject_Z k)%Q as ->.
      { rewrite inject_Z_mult. change (inject_Z 150) with 150%Q.
        change (inject_Z 1500) with 1500%Q. change (inject_Z 10) with 10%Q.
        field. }
      by rewrite Qceiling_Z. }
    split; [exact Hs|]. rewrite Hs, inject_Z_mult.
    change (inject_Z 150) with 150%Q.
    assert (0 < inject_Z k)%Q as Hpos.
    { change 0%Q with (inject_Z 0). rewrite <- Zlt_Qlt. lia. }
    field. intros H0. rewrite H0 in Hpos. by apply Qlt_irrefl in Hpos.
Qed.

(** X15.  A longer audio is never given a lower speed. *)
Theorem X15_new_speed_monotone (d1 d2 : Q) :
  (d1 <= d2)%Q → (new_speed d1 <= new_speed d2)%Q.
Proof.
  intros Hle. rewrite !new_speed_tenths. unfold Qle. cbn [Qnum Qden].
  assert (Qceiling (d1 / 1500 * 10) <= Qceiling (d2 / 1500 * 10))%Z; [|lia].
  apply Qceiling_resp_le.
  apply Qmult_le_compat_r; [|done].
  apply Qmult_le_compat_r; [exact Hle|done].
Qed.

(** * The further properties on the fixed scenario *)


Lemma X1_probe_failure_witness :
  let e := Exception "could not convert string to float: 'N/A'" in
  main (fixed_env (inl e) (inr "") (inr "") (inr ""))
    (mkArgs "sermon.mp3" None) demo_world
  = (1%Z, printed (recorded demo_world [Subprocess (ffprobe_command sermon)])
            [error_line e]).
Proof.
  intros e.
  exact (X1_probe_failure (fixed_env (inl e) (inr "") (inr "") (inr ""))
           (mkArgs "sermon.mp3" None) demo_world "bytes" e eq_refl
           (or_intror (ex_intro _ "measured" (conj eq_refl eq_refl)))).
Defined.

Lemma X3_sped_up_file_reused_witness :
  let r := process_audio_file (demo_env (1501 # 1)) sermon sped_world in
  r.1 = inr (PathOps.of_string "sermon.x1.1.mp3")
  ∧ trace r.2 = [Subprocess (ffprobe_command sermon)]
  ∧ fs r.2 = fs sped_world.
Proof.
  exact (X3_sped_up_file_reused (demo_env (1501 # 1)) sped_world sermon
           (PathOps.of_string "sermon.x1.1.mp3") "bytes" "old sped-up bytes"
           (1501 # 1) eq_refl (demo_probe _ _ _) eq_refl eq_refl eq_refl).
Defined.


Lemma X5_failed_transcription_not_cached_witness :
  let e := Exception "Connection error." in
  let E := fixed_env (inr (1200 # 1)) (inr "") (inl e) (inr "") in
  let r := get_transcript E sermon demo_world in
  r.1 = inl e ∧ fs r.2 = fs demo_world
  ∧ trace (get_transcript E sermon r.2).2
    = trace r.2 ++ [TranscriptionsCreate "whisper-1" sermon].
Proof.
  intros e E.
  destruct (X5_failed_transcription_not_cached E demo_world sermon
              (PathOps.of_string "sermon.transcript.txt") "bytes" e
              eq_refl eq_refl eq_refl eq_refl)
    as (Hret & Hfs & _ & Hagain).
  split; [exact Hret|]. split; [exact Hfs | exact Hagain].
Defined.

Lemma X6_nothing_to_transcribe_witness :
  (get_transcript (demo_env (1200 # 1)) sermon (mkWorld ∅ [] [])).1
  = inl (FileNotFoundError
           "[Errno 2] No such file or directory: 'sermon.mp3'").
Proof.
  destruct (X6_nothing_to_transcribe (demo_env (1200 # 1))
              (mkWorld ∅ [] []) sermon
              (PathOps.of_string "sermon.transcript.txt")
              eq_refl (lookup_empty _) (lookup_empty _)) as (Hret & _).
  exact Hret.
Defined.

Lemma X7_summary_file_witness :
  let r := generate_and_save_summary (demo_env (1200 # 1)) sermon
             "Hello world." None demo_world in
  r.1 = inr tt
  ∧ fs r.2 = <[PathOps.of_string "sermon.summary.txt" := "A summary."]>
               (fs demo_world).
Proof.
  destruct (X7_summary_file (demo_env (1200 # 1)) demo_world sermon
              (PathOps.of_string "sermon.summary.txt") "Hello world." None
              eq_refl) as (_ & Hsaved & _).
  destruct (Hsaved "A summary." eq_refl) as (Hret & Hfs & _).
  split; [exact Hret | exact Hfs].
Defined.

Lemma X8_main_preserves_files_witness :
  fs (main (demo_env (1501 # 1)) (mkArgs "sermon.mp3" None) cached_world).2
    !! PathOps.of_string "sermon.transcript.txt"
  = Some "Cached text.".
Proof.
  destruct (X8_main_preserves_files (demo_env (1501 # 1))
              (mkArgs "sermon.mp3" None) cached_world
              (PathOps.of_string "sermon.transcript.txt") "Cached text."
              eq_refl) as (_ & Hkeep).
  exact (Hkeep eq_refl).
Defined.

Lemma X9_source_audio_untouched_witness :
  fs (main (demo_env (1501 # 1)) (mkArgs "sermon.mp3" None) demo_world).2
    !! sermon
  = Some "bytes".
Proof.
  exact (X9_source_audio_untouched (demo_env (1501 # 1))
           (mkArgs "sermon.mp3" None) demo_world "bytes" eq_refl).
Defined.

Lemma X11_success_postcondition_witness :
  let r := main (demo_env (1200 # 1)) (mkArgs "sermon.mp3" None)
             demo_world in
  ∃ tf sf t s,
    PathOps.with_suffix sermon ".transcript.txt" = inr tf
    ∧ fs r.2 !! tf = Some t
    ∧ PathOps.with_suffix sermon ".summary.txt" = inr sf
    ∧ fs r.2 !! sf = Some s
    ∧ List.last (stdout r.2) "" = "Summary:" +:+ nl +:+ s.
Proof.
  intros r.
  assert (r.1 = 0%Z) as Hcode by (by vm_compute).
  destruct (X11_success_postcondition (demo_env (1200 # 1))
              (mkArgs "sermon.mp3" None) demo_world Hcode)
    as (q & tf & sf & t & s & Hq & _ & Htf & Ht & Hsf & Hs & Hlast & _).
  assert (inr q = inr sermon :> exn + Path) as Hq'
    by (rewrite <- Hq; by vm_compute).
  injection Hq' as ->.
  exists tf, sf, t, s. split; [exact Htf|]. split; [exact Ht|].
  split; [exact Hsf|]. split; [exact Hs | exact Hlast].
Defined.

Lemma X12_artifact_paths_witness :
  NoDup [ sermon; PathOps.of_string "sermon.transcript.txt";
          PathOps.of_string "sermon.summary.txt" ]
  ∧ ∃ tf sf,
      PathOps.name tf = "sermon.x1.1.transcript.txt"
      ∧ PathOps.name sf = "sermon.x1.1.summary.txt"
      ∧ NoDup [sermon; PathOps.of_string "sermon.x1.1.mp3"; tf; sf].
Proof.
  destruct (X12_artifact_paths sermon "1.1") as [Hplain Hsped].
  split.
  - exact (Hplain _ _ eq_refl eq_refl).
  - destruct (Hsped (PathOps.of_string "sermon.x1.1.mp3") eq_refl)
      as (tf & sf & _ & _ & Hntf & Hnsf & Hnodup).
    exists tf, sf. split; [exact Hntf|]. split; [exact Hnsf | exact Hnodup].
Defined.

Lemma X13_long_audio_transcript_key_witness :
  TranscriptionsCreate "whisper-1" (PathOps.of_string "sermon.x1.1.mp3")
  ∈ trace (main (demo_env (1501 # 1)) (mkArgs "sermon.mp3" None)
             cached_world).2.
Proof.
  destruct (X13_long_audio_transcript_key (demo_env (1501 # 1))
              (mkArgs "sermon.mp3" None) cached_world _
              (PathOps.of_string "sermon.x1.1.mp3")
              (PathOps.of_string "sermon.x1.1.transcript.txt")
              "bytes" (1501 # 1) eq_refl (demo_probe _ _ _) eq_refl
              (process_audio_file_encode (demo_env (1501 # 1)) cached_world
                 sermon (PathOps.of_string "sermon.x1.1.mp3") "bytes"
                 "sped-up bytes" (1501 # 1) eq_refl (demo_probe _ _ _)
                 eq_refl eq_refl eq_refl eq_refl)
              eq_refl eq_refl) as [_ Hcall].
  exact Hcall.
Defined.

Lemma X14_adjusted_duration_range_witness :
  ((15000 # 11) < (3200 # 1) / new_speed (3200 # 1))%Q
  ∧ (new_speed (inject_Z (150 * 11)) == inject_Z 11 / 10)%Q.
Proof.
  destruct (X14_adjusted_duration_range (3200 # 1) eq_refl)
    as (_ & Hlow & Hat).
  split; [exact Hlow|].
  assert (11 <= 11)%Z as Hk by (by vm_compute).
  exact (proj1 (Hat 11%Z Hk)).
Defined.

Lemma X15_new_speed_monotone_witness :
  (new_speed (1501 # 1) <= new_speed (3200 # 1))%Q.
Proof.
  assert ((1501 # 1) <= (3200 # 1))%Q as Hle by (by vm_compute).
  exact (X15_new_speed_monotone (1501 # 1) (3200 # 1) Hle).
Defined.
